(** * bee-agent: the MSK bridge of [agent.py]

    A shallow embedding of [agent.py]: the TLS context builder
    [create_ssl_context], the consumer's [value_deserializer], and the
    consume / classify / dispatch loop of [main] with its two layers of
    exception handlers and its [finally] block; and of [config.py]: the
    validator [validate_uri], [deep_merge], [find_config] and
    [get_settings] with its cache.

    Python values are modelled by [pyvalue]; exceptions by [exn] and the
    sum type [result]; the side effects of [main] (log records, calls of
    the agent, calls of [stop]) by a trace of [event]s written by a small
    state-and-error monad [M]. *)

From Stdlib Require Import ZArith String Ascii List Bool Lia.
From stdpp Require Import base option gmap strings list.

Open Scope Z_scope.

(* ===================================================================== *)
(** ** Python values, truthiness and exceptions *)
(* ===================================================================== *)

Module Py.

(** A Python [float] that came out of [json.loads], kept as the decimal
    literal it was read from: [FDec neg m e] stands for the double nearest
    to [(-1)^neg * m * 10^e]. *)
Inductive pyfloat :=
| FNaN
| FInf (neg : bool)
| FDec (neg : bool) (m : N) (e : Z).

(** The values [json.loads] can produce.  A [str] is the string of its
    UTF-8 bytes; a [dict] decoded from JSON has [str] keys. *)
#[local] Unset Elimination Schemes.
Inductive pyvalue :=
| VNone
| VBool (b : bool)
| VInt (z : Z)
| VFloat (f : pyfloat)
| VStr (s : string)
| VList (l : list pyvalue)
| VDict (d : gmap string pyvalue).
#[local] Set Elimination Schemes.

(** [bool(f)] is [f != 0.0].  Decimal-to-double conversion rounds to
    nearest, ties to even, so a literal becomes [0.0] exactly when its
    magnitude is at most [2^-1075], half the least subnormal. *)
Definition float_truthy (f : pyfloat) : bool :=
  match f with
  | FNaN | FInf _ => true
  | FDec _ m e =>
      if (m =? 0)%N then false
      else if (0 <=? e)%Z then true
      else (10 ^ (- e) <? Z.of_N m * 2 ^ 1075)%Z
  end.

(** [bool(v)], the test behind [if v:] and [not v]. *)
Definition truthy (v : pyvalue) : bool :=
  match v with
  | VNone => false
  | VBool b => b
  | VInt z => negb (z =? 0)
  | VFloat f => float_truthy f
  | VStr s => negb (String.eqb s "")
  | VList l => negb (Nat.eqb (length l) 0)
  | VDict d => negb (Nat.eqb (size d) 0)
  end.

Definition is_dict (v : pyvalue) : bool :=
  match v with VDict _ => true | _ => false end.

(** [v == s] for a [str] literal [s]: only an equal [str] compares equal. *)
Definition eq_str (v : pyvalue) (s : string) : bool :=
  match v with VStr t => String.eqb t s | _ => false end.

(** [v in [s1, s2, ...]] for a list of [str] literals. *)
Definition in_strs (v : pyvalue) (l : list string) : bool :=
  existsb (eq_str v) l.

(** The exception classes the program can meet.  [KeyboardInterrupt] and
    the classes gathered under [OtherBaseException] ([SystemExit],
    [asyncio.CancelledError], ...) derive from [BaseException] only. *)
Inductive exn :=
| JSONDecodeError
| AttributeError
| KeyError
| ValueError
| KeyboardInterrupt
| OtherException (name : string)
| OtherBaseException (name : string).

(** [isinstance(e, Exception)] *)
Definition is_Exception (e : exn) : bool :=
  match e with
  | KeyboardInterrupt | OtherBaseException _ => false
  | _ => true
  end.

Definition is_JSONDecodeError (e : exn) : bool :=
  match e with JSONDecodeError => true | _ => false end.

Definition is_KeyboardInterrupt (e : exn) : bool :=
  match e with KeyboardInterrupt => true | _ => false end.

(** The outcome of evaluating an expression: a value or a raised exception. *)
Inductive result (X : Type) :=
| Ok (x : X)
| Raise (e : exn).
Arguments Ok {X} x.
Arguments Raise {X} e.

#[export] Instance result_ret : MRet result := fun X x => Ok x.
#[export] Instance result_bind : MBind result := fun X Y k r =>
  match r with Ok x => k x | Raise e => Raise e end.

(** [d.get(k)]: the value at [k], [None] when [k] is missing. *)
Definition dict_get (d : gmap string pyvalue) (k : string) : pyvalue :=
  default VNone (d !! k).

(** [k in d] *)
Definition dict_contains (d : gmap string pyvalue) (k : string) : bool :=
  bool_decide (is_Some (d !! k)).

(** [d[k]] *)
Definition dict_getitem (d : gmap string pyvalue) (k : string) : result pyvalue :=
  match d !! k with Some v => Ok v | None => Raise KeyError end.

(** [o.get(k)] on an arbitrary object: of the decoded JSON values only a
    [dict] has the attribute [get]. *)
Definition method_get (o : pyvalue) (k : string) : result pyvalue :=
  match o with
  | VDict d => Ok (dict_get d k)
  | _ => Raise AttributeError
  end.

(** [k in o] on an object that is already known to be a [dict]. *)
Definition contains (o : pyvalue) (k : string) : bool :=
  match o with VDict d => dict_contains d k | _ => false end.

(** [o[k]] *)
Definition getitem (o : pyvalue) (k : string) : result pyvalue :=
  match o with VDict d => dict_getitem d k | _ => Raise KeyError end.

End Py.
Export Py.


(* ===================================================================== *)
(** ** [json.loads] and [bytes.decode] *)
(* ===================================================================== *)

(** A model of the two library functions the program calls on message
    text, after CPython's [json.decoder] and [json.scanner] (default
    decoder: strict strings, [NaN] and [Infinity] accepted, the last of
    two equal keys wins).  The theorems on the loop hold for any decoder;
    this one runs the program on sample payloads.  The recursion limit of
    the interpreter and the digit limit of [int] are not modelled. *)
Module Json.

Inductive parse (X : Type) :=
| Parsed (x : X) (rest : string)
| Invalid
| Deep.
Arguments Parsed {X} x rest.
Arguments Invalid {X}.
Arguments Deep {X}.

Definition pbind {X Y} (p : parse X) (k : X -> string -> parse Y) : parse Y :=
  match p with
  | Parsed x rest => k x rest
  | Invalid => Invalid
  | Deep => Deep
  end.

Definition is_char (c : ascii) (d : string) : bool :=
  match d with String d0 EmptyString => Ascii.eqb c d0 | _ => false end.

Definition is_ws (c : ascii) : bool :=
  let n := N_of_ascii c in
  ((n =? 32) || (n =? 9) || (n =? 10) || (n =? 13))%N.

Definition is_digit (c : ascii) : bool :=
  let n := N_of_ascii c in ((48 <=? n) && (n <=? 57))%N.

#[global] Arguments is_char : simpl never.
#[global] Arguments is_ws : simpl never.
#[global] Arguments is_digit : simpl never.

Fixpoint skip_ws (s : string) : string :=
  match s with
  | String c r => if is_ws c then skip_ws r else s
  | EmptyString => s
  end.

(** [strip p s]: what follows the prefix [p] of [s]. *)
Fixpoint strip (p s : string) : option string :=
  match p, s with
  | EmptyString, _ => Some s
  | String a p', String b s' => if Ascii.eqb a b then strip p' s' else None
  | String _ _, EmptyString => None
  end.

Definition hex_digit (c : ascii) : option N :=
  let n := N_of_ascii c in
  if ((48 <=? n) && (n <=? 57))%N then Some (n - 48)%N
  else if ((97 <=? n) && (n <=? 102))%N then Some (n - 87)%N
  else if ((65 <=? n) && (n <=? 70))%N then Some (n - 55)%N
  else None.

(** The four hex digits of a [\uXXXX] escape. *)
Definition hex4 (s : string) : option (N * string) :=
  match s with
  | String a (String b (String c (String d r))) =>
      match hex_digit a, hex_digit b, hex_digit c, hex_digit d with
      | Some x, Some y, Some z, Some w => Some (((x * 16 + y) * 16 + z) * 16 + w, r)%N
      | _, _, _, _ => None
      end
  | _ => None
  end.

Definition byte (n : N) : string := String (ascii_of_N n) EmptyString.

(** The UTF-8 bytes of a code point (a lone surrogate takes three bytes). *)
Definition utf8 (c : N) : string :=
  (if c <? 128 then byte c
   else if c <? 2048 then byte (192 + c / 64) +:+ byte (128 + c mod 64)
   else if c <? 65536 then
     byte (224 + c / 4096) +:+ byte (128 + (c / 64) mod 64) +:+ byte (128 + c mod 64)
   else
     byte (240 + c / 262144) +:+ byte (128 + (c / 4096) mod 64)
       +:+ byte (128 + (c / 64) mod 64) +:+ byte (128 + c mod 64))%N.

Definition is_quote (c : ascii) : bool := (N_of_ascii c =? 34)%N.
#[global] Arguments is_quote : simpl never.

(** The table [BACKSLASH] of one-letter escapes. *)
Definition backslash (c : ascii) : option N :=
  if is_quote c then Some 34%N
  else if is_char c "\" then Some 92%N
  else if is_char c "/" then Some 47%N
  else if is_char c "b" then Some 8%N
  else if is_char c "f" then Some 12%N
  else if is_char c "n" then Some 10%N
  else if is_char c "r" then Some 13%N
  else if is_char c "t" then Some 9%N
  else None.

Definition cons_str (p : string) (r : parse string) : parse string :=
  pbind r (fun x rest => Parsed (p +:+ x) rest).

(** [scanstring]: the text after an opening quote, up to the closing one. *)
Fixpoint scanstring (s : string) : parse string :=
  match s with
  | EmptyString => Invalid
  | String c r =>
      if is_quote c then Parsed EmptyString r
      else if is_char c "\" then
        match r with
        | EmptyString => Invalid
        | String e r1 =>
            if is_char e "u" then
              match r1 with
              | String a (String b (String c1 (String d r2))) =>
                  match hex4 (String a (String b (String c1 (String d EmptyString)))) with
                  | None => Invalid
                  | Some (hi, _) =>
                      if ((55296 <=? hi) && (hi <=? 56319))%N then
                        match r2 with
                        | String b1 (String u1 (String a' (String b' (String c' (String d' r3))))) =>
                            if is_char b1 "\" && is_char u1 "u" then
                              match hex4 (String a' (String b' (String c' (String d' EmptyString)))) with
                              | None => Invalid
                              | Some (lo, _) =>
                                  if ((56320 <=? lo) && (lo <=? 57343))%N then
                                    cons_str (utf8 (65536 + (hi - 55296) * 1024 + (lo - 56320))%N)
                                             (scanstring r3)
                                  else cons_str (utf8 hi) (scanstring r2)
                              end
                            else cons_str (utf8 hi) (scanstring r2)
                        | _ => cons_str (utf8 hi) (scanstring r2)
                        end
                      else cons_str (utf8 hi) (scanstring r2)
                  end
              | _ => Invalid
              end
            else
              match backslash e with
              | Some n => cons_str (byte n) (scanstring r1)
              | None => Invalid
              end
        end
      else if (N_of_ascii c <? 32)%N then Invalid
      else cons_str (String c EmptyString) (scanstring r)
  end.

(** The longest run of decimal digits at the head of [s], as the number it
    writes and its length. *)
Fixpoint digits (acc : N) (len : nat) (s : string) : N * nat * string :=
  match s with
  | String c r =>
      if is_digit c then digits (acc * 10 + (N_of_ascii c - 48))%N (S len) r
      else (acc, len, s)
  | EmptyString => (acc, len, s)
  end.

(** The three groups of [NUMBER_RE].  The integer part: 0, or a digit
    string without leading zero. *)
Definition match_int (s : string) : option (N * string) :=
  match s with
  | EmptyString => None
  | String c r =>
      if negb (is_digit c) then None
      else if is_char c "0" then Some (0%N, r)
      else let '(int, _, r1) := digits 0 0 s in Some (int, r1)
  end.

(** The optional fraction, a dot and at least one digit: the digits read
    so far with those of the fraction appended, and how many were. *)
Definition match_frac (int : N) (s : string) : N * nat * string :=
  match s with
  | String p r =>
      if is_char p "." then
        match digits int 0 r with
        | (_, O, _) => (int, O, s)
        | (m, n, r') => (m, n, r')
        end
      else (int, O, s)
  | EmptyString => (int, O, s)
  end.

(** The optional exponent: e or E, an optional sign, at least one digit. *)
Definition match_exp (s : string) : option Z * string :=
  match s with
  | String e r =>
      if is_char e "e" || is_char e "E" then
        let '(eneg, r') :=
          match r with
          | String g t =>
              if is_char g "-" then (true, t)
              else if is_char g "+" then (false, t) else (false, r)
          | EmptyString => (false, r)
          end in
        match digits 0 0 r' with
        | (_, O, _) => (None, s)
        | (x, _, t) => (Some (if eneg then - Z.of_N x else Z.of_N x), t)
        end
      else (None, s)
  | EmptyString => (None, s)
  end.

(** [NUMBER_RE]: an optional minus sign and the three groups.  With a
    fraction or an exponent the literal is a [float], else an [int]. *)
Definition match_number (s : string) : option (pyvalue * string) :=
  let '(neg, s1) :=
    match s with
    | String c r => if is_char c "-" then (true, r) else (false, s)
    | EmptyString => (false, s)
    end in
  match match_int s1 with
  | None => None
  | Some (int, r1) =>
      let '(m, flen, r2) := match_frac int r1 in
      let '(ex, r3) := match_exp r2 in
      match flen, ex with
      | O, None => Some (VInt (if neg then - Z.of_N int else Z.of_N int), r3)
      | _, _ => Some (VFloat (FDec neg m (default 0 ex - Z.of_nat flen)), r3)
      end
  end.

(** The literals and numbers of [scan_once], in its order of tests. *)
Definition scan_atom (s : string) : parse pyvalue :=
  match strip "null" s, strip "true" s, strip "false" s with
  | Some r, _, _ => Parsed VNone r
  | _, Some r, _ => Parsed (VBool true) r
  | _, _, Some r => Parsed (VBool false) r
  | None, None, None =>
      match match_number s with
      | Some (v, r) => Parsed v r
      | None =>
          match strip "NaN" s, strip "Infinity" s, strip "-Infinity" s with
          | Some r, _, _ => Parsed (VFloat FNaN) r
          | _, Some r, _ => Parsed (VFloat (FInf false)) r
          | _, _, Some r => Parsed (VFloat (FInf true)) r
          | None, None, None => Invalid
          end
      end
  end.

(** [scan_once], [JSONObject] and [JSONArray].  Each call takes one unit
    of fuel; running out of fuel is [Deep], never [Invalid]. *)
Fixpoint scan_once (fuel : nat) (s : string) : parse pyvalue :=
  match fuel with
  | O => Deep
  | S fuel =>
      match s with
      | EmptyString => Invalid
      | String c r =>
          if is_quote c then pbind (scanstring r) (fun k rest => Parsed (VStr k) rest)
          else if is_char c "{" then
            match skip_ws r with
            | String c1 r1 =>
                if is_char c1 "}" then Parsed (VDict ∅) r1
                else parse_object fuel (skip_ws r) ∅
            | EmptyString => Invalid
            end
          else if is_char c "[" then
            match skip_ws r with
            | String c1 r1 =>
                if is_char c1 "]" then Parsed (VList []) r1
                else parse_array fuel (skip_ws r) []
            | EmptyString => Invalid
            end
          else scan_atom s
      end
  end
with parse_object (fuel : nat) (s : string) (pairs : gmap string pyvalue) : parse pyvalue :=
  match fuel with
  | O => Deep
  | S fuel =>
      match s with
      | EmptyString => Invalid
      | String c r =>
          if negb (is_quote c) then Invalid
          else
            pbind (scanstring r) (fun key r1 =>
              match skip_ws r1 with
              | EmptyString => Invalid
              | String c1 r2 =>
                  if negb (is_char c1 ":") then Invalid
                  else
                    pbind (scan_once fuel (skip_ws r2)) (fun value r3 =>
                      let pairs := <[key := value]> pairs in
                      match skip_ws r3 with
                      | EmptyString => Invalid
                      | String c2 r4 =>
                          if is_char c2 "}" then Parsed (VDict pairs) r4
                          else if is_char c2 "," then parse_object fuel (skip_ws r4) pairs
                          else Invalid
                      end)
              end)
      end
  end
with parse_array (fuel : nat) (s : string) (values : list pyvalue) : parse pyvalue :=
  match fuel with
  | O => Deep
  | S fuel =>
      pbind (scan_once fuel s) (fun value r1 =>
        let values := values ++ [value] in
        match skip_ws r1 with
        | EmptyString => Invalid
        | String c r2 =>
            if is_char c "]" then Parsed (VList values) r2
            else if is_char c "," then parse_array fuel (skip_ws r2) values
            else Invalid
        end)
  end.

(** [json.loads(s)] for a [str]: one value between optional whitespace,
    [JSONDecodeError] on anything else.  Two units of fuel for each
    character are enough ([loads_fuel] below). *)
Definition loads (s : string) : result pyvalue :=
  match scan_once (S (2 * String.length s)) (skip_ws s) with
  | Parsed v rest =>
      match skip_ws rest with
      | EmptyString => Ok v
      | String _ _ => Raise JSONDecodeError
      end
  | Invalid => Raise JSONDecodeError
  | Deep => Raise (OtherException "RecursionError")
  end.

Definition in_range (lo hi : N) (c : ascii) : bool :=
  ((lo <=? N_of_ascii c) && (N_of_ascii c <=? hi))%N.

(** Well-formed UTF-8: shortest forms only, no surrogates, nothing above
    U+10FFFF. *)
Fixpoint utf8_valid (s : string) : bool :=
  match s with
  | EmptyString => true
  | String b0 r =>
      if in_range 0 127 b0 then utf8_valid r
      else
        match r with
        | EmptyString => false
        | String b1 r1 =>
            if in_range 194 223 b0 then in_range 128 191 b1 && utf8_valid r1
            else
              match r1 with
              | EmptyString => false
              | String b2 r2 =>
                  let lead3 :=
                    (in_range 224 224 b0 && in_range 160 191 b1)
                    || (in_range 225 236 b0 && in_range 128 191 b1)
                    || (in_range 237 237 b0 && in_range 128 159 b1)
                    || (in_range 238 239 b0 && in_range 128 191 b1) in
                  if lead3 then in_range 128 191 b2 && utf8_valid r2
                  else
                    match r2 with
                    | EmptyString => false
                    | String b3 r3 =>
                        let lead4 :=
                          (in_range 240 240 b0 && in_range 144 191 b1)
                          || (in_range 241 243 b0 && in_range 128 191 b1)
                          || (in_range 244 244 b0 && in_range 128 143 b1) in
                        lead4 && in_range 128 191 b2 && in_range 128 191 b3
                          && utf8_valid r3
                    end
              end
        end
  end.

(** [m.decode('utf-8')]: a [str] is kept as its UTF-8 bytes, so decoding
    checks the bytes and returns them. *)
Definition decode (m : string) : result string :=
  if utf8_valid m then Ok m else Raise (OtherException "UnicodeDecodeError").

(** [consumes s p]: the scan [p] did not run out of fuel and, where it
    succeeded, left less text than [s]. *)
Definition consumes {X} (s : string) (p : parse X) : Prop :=
  match p with
  | Parsed _ rest => (String.length rest < String.length s)%nat
  | Invalid => True
  | Deep => False
  end.

(** [dq s]: the text [s] with a double quote for each apostrophe, to
    write JSON samples. *)
Fixpoint dq (s : string) : string :=
  match s with
  | EmptyString => EmptyString
  | String c r => String (if is_char c "'" then ascii_of_N 34 else c) (dq r)
  end.

End Json.

(* ===================================================================== *)
(** ** [create_ssl_context] *)
(* ===================================================================== *)

Module Ssl.

Inductive VerifyMode := CERT_NONE | CERT_OPTIONAL | CERT_REQUIRED.

Inductive TLSVersion :=
| MINIMUM_SUPPORTED | SSLv3 | TLSv1 | TLSv1_1 | TLSv1_2 | TLSv1_3 | MAXIMUM_SUPPORTED.

(** The attributes of an [ssl.SSLContext] the builder reads or writes,
    the protocol floor [minimum_version] it leaves alone, and whether
    [load_default_certs] has been called. *)
Record SSLContext := {
  options : Z;
  check_hostname : bool;
  verify_mode : VerifyMode;
  minimum_version : TLSVersion;
  default_certs : bool
}.

(** [ssl.SSLContext(ssl.PROTOCOL_TLS_CLIENT)]: the client protocol turns
    hostname checking and certificate verification on; the option bits and
    the protocol floor are the defaults of the interpreter and of its
    OpenSSL. *)
Definition SSLContext_PROTOCOL_TLS_CLIENT (default_options : Z) (floor : TLSVersion)
  : SSLContext :=
  {| options := default_options;
     check_hostname := true;
     verify_mode := CERT_REQUIRED;
     minimum_version := floor;
     default_certs := false |}.

Definition set_options (ctx : SSLContext) (o : Z) : SSLContext :=
  {| options := o;
     check_hostname := check_hostname ctx;
     verify_mode := verify_mode ctx;
     minimum_version := minimum_version ctx;
     default_certs := default_certs ctx |}.

(** [ctx.check_hostname = b]; turning the check on also turns
    verification on. *)
Definition set_check_hostname (ctx : SSLContext) (b : bool) : SSLContext :=
  {| options := options ctx;
     check_hostname := b;
     verify_mode :=
       match b, verify_mode ctx with
       | true, CERT_NONE => CERT_REQUIRED
       | _, m => m
       end;
     minimum_version := minimum_version ctx;
     default_certs := default_certs ctx |}.

(** [ctx.verify_mode = m]; [CERT_NONE] is refused with [ValueError] while
    [check_hostname] is on. *)
Definition set_verify_mode (ctx : SSLContext) (m : VerifyMode) : result SSLContext :=
  match m, check_hostname ctx with
  | CERT_NONE, true => Raise ValueError
  | _, _ =>
      Ok {| options := options ctx;
            check_hostname := check_hostname ctx;
            verify_mode := m;
            minimum_version := minimum_version ctx;
            default_certs := default_certs ctx |}
  end.

Definition load_default_certs (ctx : SSLContext) : SSLContext :=
  {| options := options ctx;
     check_hostname := check_hostname ctx;
     verify_mode := verify_mode ctx;
     minimum_version := minimum_version ctx;
     default_certs := true |}.

(** [ctx.options & bit == bit] for an option bit of the OpenSSL in use. *)
Definition has_option (ctx : SSLContext) (bit : Z) : bool :=
  negb (bit =? 0) && (Z.land (options ctx) bit =? bit).

(** A context is held to TLS 1.2 and later when its floor says so, or
    when both older TLS versions are switched off by their option bits. *)
Definition tls12_only (OP_NO_TLSv1 OP_NO_TLSv1_1 : Z) (ctx : SSLContext) : bool :=
  match minimum_version ctx with
  | TLSv1_2 | TLSv1_3 | MAXIMUM_SUPPORTED => true
  | _ => has_option ctx OP_NO_TLSv1 && has_option ctx OP_NO_TLSv1_1
  end.

Section Builder.

(** The option bits [ssl.OP_NO_SSLv2] and [ssl.OP_NO_SSLv3] of the OpenSSL
    in use, and the defaults a fresh context starts from. *)
Variables OP_NO_SSLv2 OP_NO_SSLv3 : Z.
Variable default_options : Z.
Variable floor : TLSVersion.

Definition create_ssl_context : result SSLContext :=
  let ctx := SSLContext_PROTOCOL_TLS_CLIENT default_options floor in
  let ctx := set_options ctx (Z.lor (options ctx) (Z.lor OP_NO_SSLv2 OP_NO_SSLv3)) in
  let ctx := set_check_hostname ctx false in
  ctx ← set_verify_mode ctx CERT_NONE;
  let ctx := load_default_certs ctx in
  mret ctx.

End Builder.

End Ssl.

(* ===================================================================== *)
(** ** [create_consumer]'s deserializer and the loop of [main] *)
(* ===================================================================== *)

Module Agent.

Inductive level := INFO | ERROR.

(** An argument of a log record. *)
Inductive arg :=
| AVal (v : pyvalue)
| AExn (e : exn)
| AStr (s : string).

(** What [main] does to the outside world, in the order it does it. *)
Inductive event :=
| Fetch (value : pyvalue)              (* [async for] binds the next [message] *)
| Log (lv : level) (fmt : string) (args : list arg)
| Call (prompt : pyvalue)              (* [agent.assistant(user_content)] is entered *)
| Return (r : result pyvalue)          (* ... and is left *)
| Print_exc (e : exn)                  (* [traceback.print_exc()] *)
| Stop_consumer                        (* [consumer.stop()] is entered *)
| Stop_producer.                       (* [producer.stop()] is entered *)

Definition TOPIC_NAME : string := "mcp_agent_queen".

(** How the message stream ends: [StopAsyncIteration], or an exception
    raised by the iterator (a transport error, an interrupt). *)
Inductive consumer_end :=
| Exhausted
| Failing (e : exn).

Section Bridge.

(** The library functions applied to message text. *)
Variable json_loads : string -> result pyvalue.
Variable bytes_decode : string -> result string.

(** The agent: an opaque capability with a state of its own. *)
Variable A : Type.
Variable assistant : pyvalue -> A -> A * result pyvalue.

(** The outcomes of [consumer.stop()] and [producer.stop()]. *)
Variables consumer_stop producer_stop : result unit.

(** [value_deserializer], on the payload [m] ([None] or bytes):
    [json.loads(m.decode('utf-8')) if m else None]. *)
Definition value_deserializer (m : option string) : result pyvalue :=
  match m with
  | None => Ok VNone
  | Some b =>
      if String.eqb b "" then Ok VNone
      else text ← bytes_decode b; json_loads text
  end.

(** The classification of [main]: the value of the variable
    [user_content] once the [if isinstance ... elif isinstance ...]
    statement has run on [message.value]. *)
Definition user_content (value : pyvalue) : result pyvalue :=
  match value with
  | VDict d =>
      if eq_str (dict_get d "type") "user_message" && dict_contains d "content"
      then dict_getitem d "content"
      else if eq_str (dict_get d "type") "user" && dict_contains d "content"
      then dict_getitem d "content"
      else Ok VNone
  | VStr s =>
      match json_loads s with
      | Ok data_obj =>
          tag ← method_get data_obj "type";
          if in_strs tag ["user_message"; "user"] && contains data_obj "content"
          then getitem data_obj "content"
          else Ok value
      | Raise e => if is_JSONDecodeError e then Ok value else Raise e
      end
  | _ => Ok VNone
  end.

(** *** The monad of [main]: agent state, event trace, exceptions *)

Definition M (X : Type) : Type := A -> A * list event * result X.

#[global] Instance M_ret : MRet M := fun X x a => (a, [], Ok x).
#[global] Instance M_bind : MBind M := fun X Y k m a =>
  match m a with
  | (a1, t1, Ok x) => let '(a2, t2, r) := k x a1 in (a2, t1 ++ t2, r)
  | (a1, t1, Raise e) => (a1, t1, Raise e)
  end.

Definition emit (ev : event) : M unit := fun a => (a, [ev], Ok tt).

Definition lift {X} (r : result X) : M X := fun a => (a, [], r).

(** [try: body except C1: h1 except C2: h2 ...]: the first clause whose
    class matches handles the exception; with no match it propagates. *)
Fixpoint handler_for {X} (clauses : list ((exn -> bool) * (exn -> M X))) (e : exn)
  : option (M X) :=
  match clauses with
  | [] => None
  | (caught, h) :: more => if caught e then Some (h e) else handler_for more e
  end.

Definition try_except {X} (body : M X) (clauses : list ((exn -> bool) * (exn -> M X)))
  : M X := fun a =>
  match body a with
  | (a1, t1, Raise e) =>
      match handler_for clauses e with
      | Some h => let '(a2, t2, r) := h a1 in (a2, t1 ++ t2, r)
      | None => (a1, t1, Raise e)
      end
  | done => done
  end.

(** [try: body finally: cleanup]: the cleanup always runs; an exception
    it raises replaces the outcome of the body. *)
Definition try_finally {X} (body : M X) (cleanup : M unit) : M X := fun a =>
  let '(a1, t1, r) := body a in
  let '(a2, t2, c) := cleanup a1 in
  (a2, t1 ++ t2, match c with Ok _ => r | Raise e => Raise e end).

(** [await agent.assistant(prompt)] *)
Definition call_assistant (prompt : pyvalue) : M pyvalue := fun a =>
  let '(a1, r) := assistant prompt a in (a1, [Call prompt; Return r], r).

(** *** The loop *)

(** The body of the inner [try], for one [message]. *)
Definition process (value : pyvalue) : M unit :=
  if negb (truthy value) then mret tt
  else
    emit (Log INFO "Received message: %s" [AVal value]);;
    content ← lift (user_content value);
    if truthy content then
      emit (Log INFO "👤 User: %s" [AVal content]);;
      response ← call_assistant content;
      emit (Log INFO "🤖 Assistant: %s" [AVal response])
    else mret tt.

(** One turn of the loop: the inner [try] with its [except Exception]. *)
Definition iteration (value : pyvalue) : M unit :=
  try_except (process value)
    [(is_Exception, fun e =>
        emit (Log ERROR "Error processing message: %s" [AExn e]);;
        emit (Print_exc e))].

(** [async for message in consumer: ...] over the messages the consumer
    delivers before it ends. *)
Fixpoint async_for (deliveries : list pyvalue) (ending : consumer_end) : M unit :=
  match deliveries with
  | [] =>
      match ending with
      | Exhausted => mret tt
      | Failing e => lift (Raise e)
      end
  | value :: rest =>
      emit (Fetch value);;
      iteration value;;
      async_for rest ending
  end.

(** The [finally] block. *)
Definition shutdown : M unit :=
  emit Stop_consumer;;
  lift consumer_stop;;
  emit Stop_producer;;
  lift producer_stop;;
  emit (Log INFO "Consumer and producer stopped." []).

(** [main], from the banner on: the outer [try] with its two handlers and
    its [finally].  The two connections are created, and [fast.run()] is
    entered, before this point. *)
Definition main (deliveries : list pyvalue) (ending : consumer_end) : M unit :=
  emit (Log INFO "🤖 MCP Agent is ready and listening for messages!" []);;
  emit (Log INFO "Listening on MSK topic: %s" [AStr TOPIC_NAME]);;
  emit (Log INFO "Send messages using the producer script to interact with the agent" []);;
  emit (Log INFO "--------------------------------------------------" []);;
  try_finally
    (try_except (async_for deliveries ending)
       [(is_KeyboardInterrupt, fun _ =>
           emit (Log INFO "Received interrupt signal, shutting down..." []));
        (is_Exception, fun e =>
           emit (Log ERROR "Fatal error: %s" [AExn e]))])
    shutdown.

(** The prompt, if any, that one delivered message sends to the agent. *)
Definition prompt_of (value : pyvalue) : option pyvalue :=
  if truthy value then
    match user_content value with
    | Ok content => if truthy content then Some content else None
    | Raise _ => None
    end
  else None.

(** Following the specification, the loop as a sequence of turns: the
    deliveries are taken one at a time in the order of delivery, each turn
    is [iteration] on its message from the state the turn before left, the
    next message is taken only once the turn has ended normally, and a turn
    that raises is the last.  The result is the state left, the turns taken
    (each message with the events of its turn) and the outcome. *)
Fixpoint turn_by_turn (deliveries : list pyvalue) (ending : consumer_end) (a : A)
  : A * list (pyvalue * list event) * result unit :=
  match deliveries with
  | [] =>
      (a, [], match ending with Exhausted => Ok tt | Failing e => Raise e end)
  | value :: rest =>
      match iteration value a with
      | (a1, evs, Ok _) =>
          let '(a2, turns, r) := turn_by_turn rest ending a1 in
          (a2, (value, evs) :: turns, r)
      | (a1, evs, Raise e) => (a1, [(value, evs)], Raise e)
      end
  end.

End Bridge.

End Agent.
Export Agent.

(** *** Reading a trace *)

(** The messages fetched and the prompts sent, in trace order. *)
Definition fetched (t : list event) : list pyvalue :=
  omap (fun ev => match ev with Fetch v => Some v | _ => None end) t.

Definition called (t : list event) : list pyvalue :=
  omap (fun ev => match ev with Call p => Some p | _ => None end) t.

(** The trace of a sequence of turns: each message is fetched, then come
    the events of its turn, then the next message is fetched. *)
Definition trace_of_turns (turns : list (pyvalue * list event)) : list event :=
  flat_map (fun turn => Fetch (fst turn) :: snd turn) turns.

Definition is_stop_consumer (ev : event) : bool :=
  match ev with Stop_consumer => true | _ => false end.

Definition is_stop_producer (ev : event) : bool :=
  match ev with Stop_producer => true | _ => false end.

Fixpoint count (p : event -> bool) (t : list event) : nat :=
  match t with
  | [] => O
  | ev :: t' => (if p ev then 1 else 0) + count p t'
  end.

(** [one_at_a_time busy t]: along [t], starting with a call in flight or
    not ([busy]), no message is fetched and no call is entered while a call
    is in flight, every [Return] closes a call, and none is left open. *)
Fixpoint one_at_a_time (busy : bool) (t : list event) : bool :=
  match t with
  | [] => negb busy
  | Fetch _ :: t' => negb busy && one_at_a_time false t'
  | Call _ :: t' => negb busy && one_at_a_time true t'
  | Return _ :: t' => busy && one_at_a_time false t'
  | _ :: t' => one_at_a_time busy t'
  end.

(** The records [main] writes before it enters the loop. *)
Definition banner : list event :=
  [Log INFO "🤖 MCP Agent is ready and listening for messages!" [];
   Log INFO "Listening on MSK topic: %s" [AStr TOPIC_NAME];
   Log INFO "Send messages using the producer script to interact with the agent" [];
   Log INFO "--------------------------------------------------" []].

(** A mapping carries a recognized type tag. *)
Definition has_tag (d : gmap string pyvalue) : bool :=
  in_strs (dict_get d "type") ["user_message"; "user"].

(** *** A sample environment *)

Module Sample.

(** An agent that records the prompts it is given, answers [ok], and
    fails on the prompt [boom]. *)
Definition assistant (prompt : pyvalue) (seen : list pyvalue)
  : list pyvalue * result pyvalue :=
  (seen ++ [prompt],
   if eq_str prompt "boom" then Raise (OtherException "RuntimeError")
   else Ok (VStr "ok")).

(** The JSON text of a control message, of a user envelope and of an
    empty object. *)
Definition ping : string := Json.dq "{'type': 'system', 'content': 'ping'}".
Definition hi : string := Json.dq "{'type': 'user', 'content': 'hi'}".

Definition ping_dict : gmap string pyvalue :=
  <["type" := VStr "system"]> (<["content" := VStr "ping"]> ∅).
Definition hi_dict : gmap string pyvalue :=
  <["type" := VStr "user"]> (<["content" := VStr "hi"]> ∅).

(** A user envelope whose content is the empty string. *)
Definition blank_dict : gmap string pyvalue :=
  <["type" := VStr "user_message"]> (<["content" := VStr ""]> ∅).

(** The records of a turn whose text [s] the agent answers, and of one
    whose text makes the agent fail with [e]. *)
Definition answered (s : string) : list event :=
  [Log INFO "Received message: %s" [AVal (VStr s)];
   Log INFO "👤 User: %s" [AVal (VStr s)];
   Call (VStr s); Return (Ok (VStr "ok"));
   Log INFO "🤖 Assistant: %s" [AVal (VStr "ok")]].

Definition failed (s : string) (e : exn) : list event :=
  [Log INFO "Received message: %s" [AVal (VStr s)];
   Log INFO "👤 User: %s" [AVal (VStr s)];
   Call (VStr s); Return (Raise e)].

(** A broker failure raised by [stop]. *)
Definition KafkaError : exn := OtherException "KafkaError".

(** Option bits as OpenSSL 1.1.1 and 3 number them. *)
Definition OP_NO_SSLv2 : Z := 0.
Definition OP_NO_SSLv3 : Z := 33554432.
Definition OP_NO_TLSv1 : Z := 67108864.
Definition OP_NO_TLSv1_1 : Z := 268435456.

End Sample.


(* ===================================================================== *)
(** ** [config.py]: the validator, the merge and the file search *)
(* ===================================================================== *)

Module Config.

(** [s.startswith(p)] *)
Definition startswith (s p : string) : bool :=
  match Json.strip p s with Some _ => true | None => false end.

(** [MCPRootSettings.validate_uri], on a field that is a [str] or [None]. *)
Definition validate_uri (v : option string) : result (option string) :=
  match v with
  | None => Ok v
  | Some s =>
      if negb (String.eqb s "") && negb (startswith s "file://")
      then Raise ValueError
      else Ok v
  end.

(** The value [deep_merge] stores at a key: the merge of the two values
    when the key is in [merged] with a mapping and [value] is a mapping
    too, else [value]. *)
Fixpoint merge_value (old : option pyvalue) (value : pyvalue) {struct value} : pyvalue :=
  match old, value with
  | Some (VDict m), VDict u =>
      VDict (map_fold (fun key v merged => <[key := merge_value (merged !! key) v]> merged) m u)
  | _, _ => value
  end.

(** [deep_merge(base, update)] on two mappings: the loop over the items
    of [update], started from a copy of [base]. *)
Definition deep_merge (base update : gmap string pyvalue) : gmap string pyvalue :=
  map_fold (fun key value merged => <[key := merge_value (merged !! key) value]> merged)
    base update.

(** The value found in [v] along a path of keys. *)
Fixpoint lookup_path (keys : list string) (v : pyvalue) : option pyvalue :=
  match keys with
  | [] => Some v
  | key :: more =>
      match v with
      | VDict d => match d !! key with Some w => lookup_path more w | None => None end
      | _ => None
      end
  end.

(** How deep the mappings of a value nest. *)
Fixpoint depth (v : pyvalue) : nat :=
  match v with
  | VDict d => S (map_fold (fun _ w acc => Nat.max (depth w) acc) O d)
  | _ => O
  end.

(** *** Paths and [get_settings] *)

(** An absolute, resolved path: its names, innermost first; [[]] is the
    root directory. *)
Definition path : Type := list string.

(** A path argument as [Path(config_path)] holds it: absolute, or
    relative to the working directory.  Paths hold plain names only (no
    [..], no symbolic links), so [resolve()] only prefixes the working
    directory. *)
Inductive upath :=
| Absolute (p : path)
| Relative (r : path).

(** What [get_settings] does to the outside world. *)
Inductive cevent :=
| Opened (file : path)                      (* [open(file, "r")] *)
| Printed (fmt : string) (file : upath).    (* [print(f"...{file}")] *)

(** [dir.parent]: the root is its own parent. *)
Definition parent (dir : path) : path := tail dir.

(** [dir / name] *)
Definition joinpath (dir : path) (name : string) : path :=
  if String.eqb name "" then dir else name :: dir.

Definition is_absolute (f : upath) : bool :=
  match f with Absolute _ => true | Relative _ => false end.

(** [f.name]: the last name of the path, empty for the root and for [.]. *)
Definition name (f : upath) : string :=
  match f with Absolute p | Relative p => hd "" p end.

(** [yaml.safe_load(f) or {}] *)
Definition or_empty (doc : pyvalue) : pyvalue :=
  if truthy doc then doc else VDict ∅.

(** The call [deep_merge(base, update)] on the documents of two files,
    mappings or not: [base.copy()] needs a mapping or a list,
    [update.items()] a mapping, and a list takes no key. *)
Definition deep_merge_call (base update : pyvalue) : result pyvalue :=
  match base, update with
  | VDict b, VDict u => Ok (VDict (deep_merge b u))
  | VList _, VDict u =>
      if Nat.eqb (size u) 0 then Ok base else Raise (OtherException "TypeError")
  | _, _ => Raise AttributeError
  end.

Section Files.

(** The working directory, the file system, and [open] followed by
    [yaml.safe_load]. *)
Variable cwd : path.
Variable exists_ : path -> bool.
Variable safe_load : path -> result pyvalue.

(** The class [Settings], called with the entries of a document as its
    keyword arguments. *)
Variable S : Type.
Variable Settings : pyvalue -> result S.

(** Where a path argument points. *)
Definition absolute (f : upath) : path :=
  match f with Absolute p => p | Relative r => r ++ cwd end.

(** [f.parent.resolve()] *)
Definition parent_resolve (f : upath) : path :=
  match f with Absolute p => parent p | Relative r => parent r ++ cwd end.

(** [for filename in filenames: ... if (current_dir / filename).exists()]:
    the first of the files that exists in [current_dir]. *)
Fixpoint first_existing (current_dir : path) (filenames : list string) : option path :=
  match filenames with
  | [] => None
  | filename :: more =>
      if exists_ (joinpath current_dir filename)
      then Some (joinpath current_dir filename)
      else first_existing current_dir more
  end.

(** [Settings.find_config], from the directory [current_dir] upwards:
    the loop ends when [current_dir == current_dir.parent]. *)
Fixpoint find_config_from (current_dir : path) : option path :=
  match current_dir with
  | [] => None
  | _ :: up =>
      match first_existing current_dir ["fastagent.config.yaml"] with
      | Some config_path => Some config_path
      | None => find_config_from up
      end
  end.

Definition find_config : option path := find_config_from cwd.

(** The search for a secrets file, from [current_dir] upwards: the first
    one found is opened and merged over [merged_settings], and the search
    ends. *)
Fixpoint merge_secrets (current_dir : path) (merged_settings : pyvalue)
  : list cevent * result pyvalue :=
  match current_dir with
  | [] => ([], Ok merged_settings)
  | _ :: up =>
      match first_existing current_dir ["fastagent.secrets.yaml"] with
      | Some secrets_file =>
          ([Opened secrets_file],
           yaml_secrets ← safe_load secrets_file;
           deep_merge_call merged_settings (or_empty yaml_secrets))
      | None => merge_secrets up merged_settings
      end
  end.

(** The file [get_settings] takes for the configuration: the path given,
    or the file of that name in the working directory when the path is
    relative and does not exist; without a path, what [find_config]
    returns. *)
Definition config_file_for (config_path : option upath) : option upath :=
  match config_path with
  | Some config_file =>
      if negb (is_absolute config_file) && negb (exists_ (absolute config_file)) then
        let resolved_path := joinpath cwd (name config_file) in
        if exists_ resolved_path then Some (Absolute resolved_path) else Some config_file
      else Some config_file
  | None => option_map Absolute find_config
  end.

(** [_settings = Settings(...); return _settings]: the cache, empty at
    this point, is set when the constructor returns. *)
Definition store (t : list cevent) (made : result S) : option S * list cevent * result S :=
  (match made with Ok s => Some s | Raise _ => None end, t, made).

(** The part of [get_settings] that reads the files, entered with an
    empty cache: the cache afterwards, the events and the outcome. *)
Definition load_settings (config_path : option upath) : option S * list cevent * result S :=
  match config_file_for config_path with
  | Some config_file =>
      if negb (exists_ (absolute config_file)) then
        store [Printed "Warning: Specified config file does not exist: %s" config_file]
              (Settings (VDict ∅))
      else
        match safe_load (absolute config_file) with
        | Raise e => (None, [Opened (absolute config_file)], Raise e)
        | Ok yaml_settings =>
            let '(t, merged_settings) :=
              merge_secrets (parent_resolve config_file) (or_empty yaml_settings) in
            match merged_settings with
            | Raise e => (None, Opened (absolute config_file) :: t, Raise e)
            | Ok kwargs => store (Opened (absolute config_file) :: t) (Settings kwargs)
            end
        end
  | None => store [] (Settings (VDict ∅))
  end.

(** [get_settings(config_path, json_config)] from the cache [_settings].
    [config_path] is [None] for [None] and for the empty string.  With a
    path the cache is emptied first; without one a full cache answers. *)
Definition get_settings (config_path : option upath) (json_config : option pyvalue)
    (_settings : option S) : option S * list cevent * result S :=
  match json_config with
  | Some kwargs => (_settings, [], Settings kwargs)
  | None =>
      match config_path, _settings with
      | None, Some cached => (_settings, [], Ok cached)
      | _, _ => load_settings config_path
      end
  end.

End Files.


End Config.

(** *** A sample file system *)

Module ConfigSample.
Import Config.

(** The working directory [/home/work/app]; a configuration file in
    [/home/work], secrets files in [/home] and in the root. *)
Definition cwd : path := ["app"; "work"; "home"].
Definition config_file : path := ["fastagent.config.yaml"; "work"; "home"].
Definition secrets_file : path := ["fastagent.secrets.yaml"; "home"].
Definition root_secrets : path := ["fastagent.secrets.yaml"].

Definition exists_ (f : path) : bool :=
  bool_decide (f ∈ [config_file; secrets_file; root_secrets;
                    ["work"; "home"]; ["home"]; []; cwd]).

Definition config_doc : gmap string pyvalue :=
  <["default_model" := VStr "haiku"]>
    (<["anthropic" := VDict (<["base_url" := VStr "https://example"]> ∅)]> ∅).
Definition secrets_doc : gmap string pyvalue :=
  <["anthropic" := VDict (<["api_key" := VStr "secret"]> ∅)]> ∅.

Definition safe_load (f : path) : result pyvalue :=
  if bool_decide (f = config_file) then Ok (VDict config_doc)
  else if bool_decide (f = secrets_file) then Ok (VDict secrets_doc)
  else Raise (OtherException "FileNotFoundError").

(** Settings that keep the document they were made from. *)
Definition Settings (kwargs : pyvalue) : result (gmap string pyvalue) :=
  match kwargs with
  | VDict d => Ok d
  | _ => Raise (OtherException "TypeError")
  end.


End ConfigSample.

(* ===================================================================== *)
(** ** [main] from its first statement *)
(* ===================================================================== *)

Module Startup.

(** The events of [main] as a whole: those of the part from the banner
    on, and around them the starts of the two connections and the entry
    and exit of [fast.run()]. *)
Inductive sevent :=
| Consumer_start                       (* [consumer.start()] is entered *)
| Producer_start                       (* [producer.start()] is entered *)
| Run_enter                            (* [fast.run()] is entered *)
| Run_exit (outcome : result unit)     (* ... and left, with the outcome of its body *)
| Ev (ev : event).

Definition is_stop (ev : sevent) : bool :=
  match ev with
  | Ev Stop_consumer | Ev Stop_producer => true
  | _ => false
  end.

Fixpoint scount (p : sevent -> bool) (t : list sevent) : nat :=
  match t with
  | [] => O
  | ev :: t' => (if p ev then 1 else 0) + scount p t'
  end.

Section Whole.

Variable json_loads : string -> result pyvalue.
Variable A : Type.
Variable assistant : pyvalue -> A -> A * result pyvalue.
Variables consumer_stop producer_stop : result unit.

(** The defaults [create_ssl_context] starts from. *)
Variables OP_NO_SSLv2 OP_NO_SSLv3 default_options : Z.
Variable floor : Ssl.TLSVersion.

(** The outcomes of [consumer.start()] and [producer.start()], of entering
    [fast.run()], and what leaving it makes of the outcome of its body. *)
Variables consumer_start producer_start : result unit.
Variable run_enter : result unit.
Variable run_exit : result unit -> result unit.

(** [create_consumer]: the consumer is built around a fresh TLS context
    and token provider, started, and the connection is logged. *)
Definition create_consumer : list sevent * result unit :=
  match Ssl.create_ssl_context OP_NO_SSLv2 OP_NO_SSLv3 default_options floor with
  | Raise e => ([], Raise e)
  | Ok ssl_context =>
      match consumer_start with
      | Raise e => ([Consumer_start], Raise e)
      | Ok _ =>
          ([Consumer_start;
            Ev (Log INFO ("Connected to MSK topic '" +:+ TOPIC_NAME +:+ "'") [])],
           Ok tt)
      end
  end.

(** [create_producer] *)
Definition create_producer : list sevent * result unit :=
  match Ssl.create_ssl_context OP_NO_SSLv2 OP_NO_SSLv3 default_options floor with
  | Raise e => ([], Raise e)
  | Ok ssl_context =>
      match producer_start with
      | Raise e => ([Producer_start], Raise e)
      | Ok _ => ([Producer_start], Ok tt)
      end
  end.

(** [main] from its first statement: the two connections, then
    [async with fast.run() as agent:] around the part modelled by
    [Agent.main]. *)
Definition main_whole (deliveries : list pyvalue) (ending : consumer_end) (a : A)
  : A * list sevent * result unit :=
  match create_consumer with
  | (t1, Raise e) => (a, t1, Raise e)
  | (t1, Ok _) =>
      match create_producer with
      | (t2, Raise e) => (a, t1 ++ t2, Raise e)
      | (t2, Ok _) =>
          match run_enter with
          | Raise e => (a, t1 ++ t2 ++ [Run_enter], Raise e)
          | Ok _ =>
              let '(a1, t, r) :=
                main json_loads A assistant consumer_stop producer_stop
                  deliveries ending a in
              (a1, t1 ++ t2 ++ [Run_enter] ++ map Ev t ++ [Run_exit r], run_exit r)
          end
      end
  end.

End Whole.

End Startup.

Module Sample2.

(** An agent that is interrupted on the prompt [stop]. *)
Definition interruptible (prompt : pyvalue) (seen : list pyvalue)
  : list pyvalue * result pyvalue :=
  (seen ++ [prompt],
   if eq_str prompt "stop" then Raise KeyboardInterrupt else Ok (VStr "ok")).

End Sample2.

(* ===================================================================== *)
(** ** The decoder has fuel enough *)
(* ===================================================================== *)

Section DecoderFuel.
Import Json.

Lemma skip_ws_length (s : string) : (String.length (skip_ws s) <= String.length s)%nat.
Proof.
  induction s as [|c s IH]; simpl; [lia|].
  destruct (is_ws c); simpl; lia.
Qed.

Lemma consumes_mono {X} (s s' : string) (p : parse X) :
  consumes s' p -> (String.length s' <= String.length s)%nat -> consumes s p.
Proof. destruct p; simpl; [lia|trivial..]. Qed.

Lemma consumes_pbind {X Y} (s s' : string) (p : parse X) (k : X -> string -> parse Y) :
  consumes s' p ->
  (forall x rest, (String.length rest < String.length s')%nat -> consumes s (k x rest)) ->
  consumes s (pbind p k).
Proof. destruct p; simpl; auto. Qed.

Lemma scanstring_consumes (n : nat) :
  forall s, (String.length s <= n)%nat -> consumes s (scanstring s).
Proof.
  induction n as [|n IH]; intros s Hn.
  - destruct s; [exact I|simpl in Hn; lia].
  - destruct s as [|c s]; [exact I|].
    simpl in Hn. simpl scanstring.
    repeat case_match; try exact I; try (simpl; lia);
      (eapply consumes_pbind; [apply IH; simpl in *; lia|]);
      intros x rest Hrest; simpl in *; lia.
Qed.

Lemma strip_length (p s r : string) :
  strip p s = Some r -> String.length s = (String.length p + String.length r)%nat.
Proof.
  revert s. induction p as [|a p IH]; intros s H.
  - injection H as <-. reflexivity.
  - destruct s as [|b s]; [discriminate|]. simpl in H.
    destruct (Ascii.eqb a b); [|discriminate].
    simpl. rewrite (IH s H). reflexivity.
Qed.

Lemma digits_length (s : string) :
  forall acc len, (String.length (digits acc len s).2 <= String.length s)%nat.
Proof.
  induction s as [|c s IH]; intros acc len; simpl; [lia|].
  destruct (is_digit c); simpl; [|lia].
  specialize (IH (acc * 10 + (N_of_ascii c - 48))%N (S len)). lia.
Qed.

Lemma match_int_shorter (s r : string) (n : N) :
  match_int s = Some (n, r) -> (String.length r < String.length s)%nat.
Proof.
  destruct s as [|c s]; [discriminate|]. unfold match_int.
  destruct (is_digit c) eqn:Hd; [|discriminate]. simpl negb. cbv iota.
  destruct (is_char c "0"); [intros [= _ <-]; simpl; lia|].
  simpl digits. rewrite Hd.
  pose proof (digits_length s (0 * 10 + (N_of_ascii c - 48))%N 1) as Hl.
  destruct (digits _ _ s) as [[m k] r1]. intros [= _ <-]. simpl in *. lia.
Qed.

Lemma match_frac_length (int : N) (s : string) :
  (String.length (match_frac int s).2 <= String.length s)%nat.
Proof.
  destruct s as [|p r]; simpl; [lia|].
  destruct (is_char p "."); simpl; [|lia].
  pose proof (digits_length r int 0) as Hl.
  destruct (digits int 0 r) as [[m [|k]] r']; simpl in *; lia.
Qed.

Lemma match_exp_length (s : string) :
  (String.length (match_exp s).2 <= String.length s)%nat.
Proof.
  destruct s as [|e r]; simpl; [lia|].
  destruct (_ || _); simpl; [|lia].
  destruct r as [|g t].
  - simpl. lia.
  - destruct (is_char g "-"); [|destruct (is_char g "+")];
      match goal with
      | |- context [digits 0 0 ?x] =>
          pose proof (digits_length x 0 0) as Hl;
          destruct (digits 0 0 x) as [[m [|k]] r']
      end; simpl in *; lia.
Qed.

Lemma match_number_shorter (s : string) (v : pyvalue) (r : string) :
  match_number s = Some (v, r) -> (String.length r < String.length s)%nat.
Proof.
  unfold match_number.
  assert (Hsign : forall neg s1,
            match s with
            | String c r0 => if is_char c "-" then (true, r0) else (false, s)
            | EmptyString => (false, s)
            end = (neg, s1) -> (String.length s1 <= String.length s)%nat).
  { intros neg s1. destruct s as [|c r0]; [intros [= _ <-]; lia|].
    destruct (is_char c "-"); intros [= _ <-]; simpl; lia. }
  destruct (match s with EmptyString => _ | String _ _ => _ end) as [neg s1].
  specialize (Hsign neg s1 eq_refl).
  destruct (match_int s1) as [[int r1]|] eqn:Hint; [|discriminate].
  apply match_int_shorter in Hint.
  pose proof (match_frac_length int r1) as Hf.
  destruct (match_frac int r1) as [[m flen] r2].
  pose proof (match_exp_length r2) as He.
  destruct (match_exp r2) as [ex r3]. simpl in Hf, He.
  destruct flen, ex; intros [= _ <-]; lia.
Qed.

Lemma scan_atom_consumes (s : string) : consumes s (scan_atom s).
Proof.
  unfold scan_atom.
  repeat case_match; simplify_eq; try exact I; simpl;
    try (match goal with Hs : strip _ _ = Some _ |- _ =>
           apply strip_length in Hs; simpl in Hs; lia end).
  eapply match_number_shorter; eassumption.
Qed.

(** With two units of fuel for each character left, and one more inside an
    object or an array, the scanner does not run out of fuel. *)
Lemma scan_fuel (n : nat) :
  (forall s, (2 * String.length s < n)%nat -> consumes s (scan_once n s))
  /\ (forall s pairs, (2 * String.length s + 1 < n)%nat ->
        consumes s (parse_object n s pairs))
  /\ (forall s values, (2 * String.length s + 1 < n)%nat ->
        consumes s (parse_array n s values)).
Proof.
  induction n as [|n (IHs & IHo & IHa)]; [repeat split; intros; lia|].
  split; [|split].
  - intros s Hn. destruct s as [|c r]; [exact I|].
    simpl in Hn. simpl scan_once.
    destruct (is_quote c).
    { eapply consumes_pbind; [apply (scanstring_consumes _ r (le_n _))|].
      intros; simpl in *; lia. }
    destruct (is_char c "{").
    { pose proof (skip_ws_length r) as Hw.
      destruct (skip_ws r) as [|c1 r1] eqn:Hr; [exact I|].
      destruct (is_char c1 "}"); [simpl in *; lia|].
      eapply consumes_mono; [apply IHo; simpl in *; lia|simpl in *; lia]. }
    destruct (is_char c "[").
    { pose proof (skip_ws_length r) as Hw.
      destruct (skip_ws r) as [|c1 r1] eqn:Hr; [exact I|].
      destruct (is_char c1 "]"); [simpl in *; lia|].
      eapply consumes_mono; [apply IHa; simpl in *; lia|simpl in *; lia]. }
    apply scan_atom_consumes.
  - intros s pairs Hn. destruct s as [|c r]; [exact I|].
    simpl in Hn. simpl parse_object.
    destruct (is_quote c); [|exact I]. simpl negb. cbv iota.
    eapply consumes_pbind; [apply (scanstring_consumes _ r (le_n _))|].
    intros key r1 Hr1. simpl in Hr1.
    pose proof (skip_ws_length r1) as Hw1.
    destruct (skip_ws r1) as [|c1 r2]; [exact I|].
    destruct (is_char c1 ":"); [|exact I]. simpl negb. cbv iota.
    pose proof (skip_ws_length r2) as Hw2.
    eapply consumes_pbind; [apply IHs; simpl in *; lia|].
    intros value r3 Hr3.
    pose proof (skip_ws_length r3) as Hw3.
    destruct (skip_ws r3) as [|c2 r4]; [exact I|].
    destruct (is_char c2 "}"); [simpl in *; lia|].
    destruct (is_char c2 ","); [|exact I].
    pose proof (skip_ws_length r4) as Hw4.
    eapply consumes_mono; [apply IHo; simpl in *; lia|simpl in *; lia].
  - intros s values Hn. simpl parse_array.
    eapply consumes_pbind; [apply IHs; lia|].
    intros value r1 Hr1.
    pose proof (skip_ws_length r1) as Hw1.
    destruct (skip_ws r1) as [|c r2]; [exact I|].
    destruct (is_char c "]"); [simpl in *; lia|].
    destruct (is_char c ","); [|exact I].
    pose proof (skip_ws_length r2) as Hw2.
    eapply consumes_mono; [apply IHa; simpl in *; lia|simpl in *; lia].
Qed.

(** [loads] never runs out of fuel. *)
Lemma loads_fuel (s : string) : loads s <> Raise (OtherException "RecursionError").
Proof.
  unfold loads.
  pose proof (skip_ws_length s) as Hw.
  pose proof (proj1 (scan_fuel (S (2 * String.length s))) (skip_ws s)) as H.
  destruct (scan_once _ (skip_ws s)) as [v rest| |].
  - destruct (skip_ws rest); discriminate.
  - discriminate.
  - exfalso. apply H. lia.
Qed.

End DecoderFuel.

(* ===================================================================== *)
(** ** Facts about the classifier and one turn of the loop *)
(* ===================================================================== *)

Lemma dict_truthy (d : gmap string pyvalue) (k : string) (v : pyvalue) :
  d !! k = Some v -> truthy (VDict d) = true.
Proof.
  intros Hk. simpl.
  destruct (size d) eqn:Hsize; [|reflexivity].
  apply map_size_empty_iff in Hsize. subst d.
  rewrite lookup_empty in Hk. discriminate.
Qed.

Lemma str_truthy (s : string) : s <> "" -> truthy (VStr s) = true.
Proof.
  intros Hs. simpl. destruct (String.eqb_spec s ""); [contradiction|reflexivity].
Qed.

Lemma has_tag_spec (d : gmap string pyvalue) :
  has_tag d = true <->
  d !! "type" = Some (VStr "user_message") \/ d !! "type" = Some (VStr "user").
Proof.
  unfold has_tag, in_strs, dict_get. simpl.
  destruct (d !! "type") as [[| | | |s| |]|] eqn:Ht; simpl;
    try (split; [discriminate | intros [H|H]; discriminate]).
  rewrite orb_false_r, orb_true_iff.
  split.
  - intros [H|H]; apply String.eqb_eq in H; subst s; auto.
  - intros [H|H]; injection H as ->; [left|right]; reflexivity.
Qed.

Section Facts.

Context (json_loads : string -> result pyvalue).
Context (A : Type) (assistant : pyvalue -> A -> A * result pyvalue).

#[local] Abbreviation user_content := (user_content json_loads).
#[local] Abbreviation process := (process json_loads A assistant).
#[local] Abbreviation iteration := (iteration json_loads A assistant).
#[local] Abbreviation async_for := (async_for json_loads A assistant).
#[local] Abbreviation turn_by_turn := (turn_by_turn json_loads A assistant).
#[local] Abbreviation prompt_of := (prompt_of json_loads).

(** The classifier on a mapping, as one equation. *)
Lemma user_content_dict (d : gmap string pyvalue) :
  user_content (VDict d) =
  if has_tag d && dict_contains d "content" then dict_getitem d "content" else Ok VNone.
Proof.
  unfold Agent.user_content, has_tag, in_strs. simpl.
  rewrite orb_false_r.
  destruct (eq_str (dict_get d "type") "user_message"); simpl.
  - destruct (dict_contains d "content"); simpl; [reflexivity|].
    rewrite andb_false_r. reflexivity.
  - reflexivity.
Qed.

(** A falsy message leaves the inner [try] at once. *)
Lemma process_falsy (value : pyvalue) (a : A) :
  truthy value = false -> process value a = (a, [], Ok tt).
Proof.
  intros Hv. unfold Agent.process. rewrite Hv. reflexivity.
Qed.

(** The inner [try] on a truthy message, by the outcome of the classifier. *)
Lemma process_truthy (value : pyvalue) (a : A) :
  truthy value = true ->
  process value a =
  match user_content value with
  | Raise e => (a, [Log INFO "Received message: %s" [AVal value]], Raise e)
  | Ok content =>
      if truthy content then
        let '(a1, r) := assistant content a in
        (a1,
         [Log INFO "Received message: %s" [AVal value];
          Log INFO "👤 User: %s" [AVal content];
          Call content; Return r]
         ++ match r with
            | Ok response => [Log INFO "🤖 Assistant: %s" [AVal response]]
            | Raise _ => []
            end,
         match r with Ok _ => Ok tt | Raise e => Raise e end)
      else (a, [Log INFO "Received message: %s" [AVal value]], Ok tt)
  end.
Proof.
  intros Hv. unfold Agent.process. rewrite Hv. simpl.
  unfold mbind, M_bind, emit, lift, call_assistant. simpl.
  destruct (user_content value) as [content|e]; [|reflexivity].
  destruct (truthy content); [|reflexivity].
  simpl. destruct (assistant content a) as [a1 [response|e]]; reflexivity.
Qed.

(** One turn of the loop, from the outcome of its inner [try]. *)
Lemma iteration_unfold (value : pyvalue) (a : A) :
  iteration value a =
  match process value a with
  | (a1, t1, Raise e) =>
      if is_Exception e then
        (a1, t1 ++ [Log ERROR "Error processing message: %s" [AExn e]; Print_exc e], Ok tt)
      else (a1, t1, Raise e)
  | done => done
  end.
Proof.
  unfold Agent.iteration, try_except.
  destruct (process value a) as [[a1 t1] [[]|e]]; [reflexivity|].
  simpl. destruct (is_Exception e); reflexivity.
Qed.

(** C1: on a delivered mapping the classifier returns the value of the
    [content] field exactly when the [type] tag is [user_message] or
    [user] and a [content] field is present; for any other mapping the
    extracted content is [None] and the turn ends without a call of the
    agent. *)
Theorem C1_mapping_classified (d : gmap string pyvalue) (a : A) :
  match d !! "content" with
  | Some c =>
      if has_tag d then user_content (VDict d) = Ok c
      else user_content (VDict d) = Ok VNone
           /\ exists t, iteration (VDict d) a = (a, t, Ok tt) /\ called t = []
  | None =>
      user_content (VDict d) = Ok VNone
      /\ exists t, iteration (VDict d) a = (a, t, Ok tt) /\ called t = []
  end.
Proof.
  assert (Hskip : user_content (VDict d) = Ok VNone ->
            exists t, iteration (VDict d) a = (a, t, Ok tt) /\ called t = []).
  { intros Hnone. rewrite iteration_unfold.
    destruct (truthy (VDict d)) eqn:Hv.
    - rewrite process_truthy, Hnone by exact Hv. simpl. eexists. split; reflexivity.
    - rewrite process_falsy by exact Hv. eexists. split; reflexivity. }
  pose proof (user_content_dict d) as Heq.
  unfold dict_contains, dict_getitem in Heq.
  destruct (d !! "content") as [c|] eqn:Hc.
  - rewrite bool_decide_eq_true_2 in Heq by eauto.
    destruct (has_tag d); simpl in Heq; [exact Heq|].
    split; [exact Heq | exact (Hskip Heq)].
  - rewrite bool_decide_eq_false_2 in Heq by (intros [? ?]; discriminate).
    rewrite andb_false_r in Heq.
    split; [exact Heq | exact (Hskip Heq)].
Qed.

(** The classifier on text that decodes to a mapping. *)
Lemma user_content_str_dict (s : string) (d : gmap string pyvalue) :
  json_loads s = Ok (VDict d) ->
  user_content (VStr s) =
  if has_tag d && dict_contains d "content" then dict_getitem d "content" else Ok (VStr s).
Proof.
  intros Hs. unfold Agent.user_content. rewrite Hs. reflexivity.
Qed.

(** C2, amended: on text that decodes to a mapping, a recognized envelope
    yields its [content] field, as the decoded mapping would; any other
    mapping yields the whole text, unchanged. *)
Theorem C2_text_envelope (s : string) (d : gmap string pyvalue) :
  json_loads s = Ok (VDict d) ->
  match d !! "content" with
  | Some c =>
      if has_tag d
      then user_content (VStr s) = Ok c /\ user_content (VDict d) = Ok c
      else user_content (VStr s) = Ok (VStr s)
  | None => user_content (VStr s) = Ok (VStr s)
  end.
Proof.
  intros Hs.
  pose proof (user_content_str_dict s d Hs) as Hstr.
  pose proof (user_content_dict d) as Hdict.
  unfold dict_contains, dict_getitem in Hstr, Hdict.
  destruct (d !! "content") as [c|] eqn:Hc.
  - rewrite bool_decide_eq_true_2 in Hstr, Hdict by eauto.
    destruct (has_tag d); simpl in Hstr, Hdict; auto.
  - rewrite bool_decide_eq_false_2 in Hstr by (intros [? ?]; discriminate).
    rewrite andb_false_r in Hstr. exact Hstr.
Qed.

(** C5, amended: a delivered non-empty text that is not valid JSON is the
    extracted content, unchanged, and is what the agent is called with. *)
Theorem C5_plain_text_verbatim (s : string) (a : A) :
  s <> "" ->
  json_loads s = Raise JSONDecodeError ->
  user_content (VStr s) = Ok (VStr s)
  /\ exists t r,
       iteration (VStr s) a =
       (fst (assistant (VStr s) a),
        [Log INFO "Received message: %s" [AVal (VStr s)];
         Log INFO "👤 User: %s" [AVal (VStr s)];
         Call (VStr s); Return (snd (assistant (VStr s) a))] ++ t,
        r).
Proof.
  intros Hne Hs.
  assert (Hc : user_content (VStr s) = Ok (VStr s)).
  { unfold Agent.user_content. rewrite Hs. reflexivity. }
  split; [exact Hc|].
  pose proof (str_truthy s Hne) as Ht.
  rewrite iteration_unfold, (process_truthy _ _ Ht), Hc, Ht.
  destruct (assistant (VStr s) a) as [a1 [response|e]]; simpl.
  - eexists _, _. reflexivity.
  - destruct (is_Exception e); eexists _, _; simpl; reflexivity.
Qed.

(** C8: a delivered mapping with a recognized tag whose [content] is falsy
    has that value extracted, and the turn ends after the "Received
    message" record: the agent is not called. *)
Theorem C8_falsy_content_dropped (d : gmap string pyvalue) (content : pyvalue) (a : A) :
  has_tag d = true ->
  d !! "content" = Some content ->
  truthy content = false ->
  user_content (VDict d) = Ok content
  /\ iteration (VDict d) a
     = (a, [Log INFO "Received message: %s" [AVal (VDict d)]], Ok tt).
Proof.
  intros Htag Hc Hfalsy.
  assert (Hu : user_content (VDict d) = Ok content).
  { rewrite user_content_dict, Htag. unfold dict_contains, dict_getitem.
    rewrite bool_decide_eq_true_2 by eauto. simpl. rewrite Hc. reflexivity. }
  split; [exact Hu|].
  rewrite iteration_unfold, (process_truthy _ _ (dict_truthy d _ _ Hc)), Hu, Hfalsy.
  reflexivity.
Qed.

(** C9: a delivered text that is valid JSON for a value other than a
    mapping makes the classifier raise [AttributeError]; the handler of
    the turn catches it, writes the error record and the traceback, and
    the turn ends: the text is not the content and the agent is not
    called.  (The empty text is not valid JSON.) *)
Theorem C9_text_non_mapping (s : string) (v : pyvalue) (a : A) :
  json_loads "" = Raise JSONDecodeError ->
  json_loads s = Ok v ->
  is_dict v = false ->
  user_content (VStr s) = Raise AttributeError
  /\ iteration (VStr s) a
     = (a,
        [Log INFO "Received message: %s" [AVal (VStr s)];
         Log ERROR "Error processing message: %s" [AExn AttributeError];
         Print_exc AttributeError],
        Ok tt).
Proof.
  intros Hempty Hs Hv.
  assert (Hne : s <> "") by (intros ->; rewrite Hempty in Hs; discriminate).
  assert (Hu : user_content (VStr s) = Raise AttributeError).
  { unfold Agent.user_content. rewrite Hs.
    destruct v; try reflexivity. discriminate. }
  split; [exact Hu|].
  rewrite iteration_unfold, (process_truthy _ _ (str_truthy s Hne)), Hu.
  reflexivity.
Qed.

(** C10: a delivered falsy value ends its turn at once: no record is
    written, the classifier is not run, the agent is not called, nothing
    is raised, and the loop goes on to the next message. *)
Theorem C10_falsy_message_skipped (value : pyvalue) (a : A) :
  truthy value = false ->
  iteration value a = (a, [], Ok tt)
  /\ forall rest ending,
       async_for (value :: rest) ending a =
       let '(a1, t, r) := async_for rest ending a in (a1, Fetch value :: t, r).
Proof.
  intros Hv.
  assert (Hi : iteration value a = (a, [], Ok tt)).
  { rewrite iteration_unfold, process_falsy by exact Hv. reflexivity. }
  split; [exact Hi|].
  intros rest ending. simpl.
  unfold mbind, M_bind, emit. fold (iteration value). rewrite Hi.
  destruct (async_for rest ending a) as [[a1 t] r]. reflexivity.
Qed.

(* --------------------------------------------------------------------- *)
(** *** The loop *)

Lemma async_for_cons (value : pyvalue) (rest : list pyvalue) (ending : consumer_end) (a : A) :
  async_for (value :: rest) ending a =
  match iteration value a with
  | (a1, t1, Ok _) =>
      let '(a2, t2, r) := async_for rest ending a1 in (a2, Fetch value :: t1 ++ t2, r)
  | (a1, t1, Raise e) => (a1, Fetch value :: t1, Raise e)
  end.
Proof.
  simpl. unfold mbind, M_bind, emit. fold (iteration value).
  destruct (iteration value a) as [[a1 t1] [[]|e]]; [|reflexivity].
  destruct (async_for rest ending a1) as [[a2 t2] r]. reflexivity.
Qed.

(** The loop over [pre ++ post] runs [pre] to its end, then [post]. *)
Lemma async_for_app (pre post : list pyvalue) (ending : consumer_end) (a : A) :
  async_for (pre ++ post) ending a =
  match async_for pre Exhausted a with
  | (a1, t1, Ok _) =>
      let '(a2, t2, r) := async_for post ending a1 in (a2, t1 ++ t2, r)
  | (a1, t1, Raise e) => (a1, t1, Raise e)
  end.
Proof.
  revert a. induction pre as [|value pre IH]; intros a.
  - simpl. destruct (async_for post ending a) as [[a2 t2] r]. reflexivity.
  - rewrite <- app_comm_cons, !async_for_cons.
    destruct (iteration value a) as [[a1 t1] [[]|e]]; [|reflexivity].
    rewrite IH.
    destruct (async_for pre Exhausted a1) as [[a2 t2] [[]|e]].
    + destruct (async_for post ending a2) as [[a3 t3] r].
      rewrite app_assoc. reflexivity.
    + reflexivity.
Qed.

(** C3: when the processing of one delivered message raises an error
    (an [Exception]), the turn catches it, writes the error record and the
    traceback, and the loop goes on: the messages after it are processed
    as the loop processes them from the state the failed message left, and
    the way the loop ends is theirs. *)
Theorem C3_failure_isolated
    (pre post : list pyvalue) (value : pyvalue) (ending : consumer_end)
    (a a1 a2 : A) (t1 t2 : list event) (e : exn) :
  async_for pre Exhausted a = (a1, t1, Ok tt) ->
  process value a1 = (a2, t2, Raise e) ->
  is_Exception e = true ->
  async_for (pre ++ value :: post) ending a =
  let '(a3, t3, r) := async_for post ending a2 in
  (a3,
   t1 ++ Fetch value :: t2
      ++ [Log ERROR "Error processing message: %s" [AExn e]; Print_exc e] ++ t3,
   r).
Proof.
  intros Hpre Hvalue He.
  rewrite async_for_app, Hpre, async_for_cons, iteration_unfold, Hvalue, He.
  destruct (async_for post ending a2) as [[a3 t3] r].
  rewrite <- !app_assoc. reflexivity.
Qed.

(** What the classifier can raise: [AttributeError], or what the decoder
    raised when that was no [JSONDecodeError]. *)
Lemma user_content_raises (value : pyvalue) (e : exn) :
  user_content value = Raise e ->
  e = AttributeError \/ exists s, json_loads s = Raise e.
Proof.
  destruct value as [| | | |s| |d]; try discriminate.
  - unfold Agent.user_content.
    destruct (json_loads s) as [data_obj|e0] eqn:Hs.
    + destruct data_obj as [| | | | | |d]; simpl;
        try (intros [= <-]; left; reflexivity).
      unfold dict_contains, dict_getitem.
      destruct (d !! "content") as [c|].
      * destruct (_ && _); discriminate.
      * rewrite bool_decide_eq_false_2 by (intros [? ?]; discriminate).
        rewrite andb_false_r. discriminate.
    + destruct (is_JSONDecodeError e0); [discriminate|].
      intros [= <-]. right. exists s. exact Hs.
  - rewrite user_content_dict. unfold dict_contains, dict_getitem.
    destruct (d !! "content") as [c|].
    + destruct (_ && _); discriminate.
    + rewrite bool_decide_eq_false_2 by (intros [? ?]; discriminate).
      rewrite andb_false_r. discriminate.
Qed.

(** The trace of one turn: it fetches nothing, calls the agent with the
    prompt of its message and with nothing else, lets no call overlap
    another, and stops no connection. *)
Lemma iteration_trace (value : pyvalue) (a : A) :
  let t := snd (fst (iteration value a)) in
  fetched t = []
  /\ called t = match prompt_of value with Some c => [c] | None => [] end
  /\ one_at_a_time false t = true
  /\ count is_stop_consumer t = O
  /\ count is_stop_producer t = O.
Proof.
  rewrite iteration_unfold. unfold Agent.prompt_of.
  destruct (truthy value) eqn:Hv.
  - rewrite (process_truthy _ _ Hv).
    destruct (user_content value) as [content|e].
    + destruct (truthy content).
      * destruct (assistant content a) as [a1 [response|e]]; simpl.
        -- repeat split.
        -- destruct (is_Exception e); simpl; repeat split.
      * simpl. repeat split.
    + destruct (is_Exception e); simpl; repeat split.
  - rewrite (process_falsy _ _ Hv). simpl. repeat split.
Qed.

Lemma fetched_app (t1 t2 : list event) : fetched (t1 ++ t2) = fetched t1 ++ fetched t2.
Proof. apply omap_app. Qed.

Lemma called_app (t1 t2 : list event) : called (t1 ++ t2) = called t1 ++ called t2.
Proof. apply omap_app. Qed.

Lemma count_app (p : event -> bool) (t1 t2 : list event) :
  count p (t1 ++ t2) = (count p t1 + count p t2)%nat.
Proof.
  induction t1 as [|ev t1 IH]; simpl; [reflexivity|]. rewrite IH. lia.
Qed.

Lemma last_app_cons {X} (l1 l2 : list X) (x : X) :
  last (l1 ++ x :: l2) = last (x :: l2).
Proof.
  induction l1 as [|y l1 IH]; [reflexivity|].
  simpl. rewrite <- IH. destruct (l1 ++ x :: l2) eqn:Hl; [|reflexivity].
  destruct l1; discriminate.
Qed.

Lemma one_at_a_time_app (busy : bool) (t1 t2 : list event) :
  one_at_a_time busy t1 = true ->
  one_at_a_time busy (t1 ++ t2) = one_at_a_time false t2.
Proof.
  revert busy. induction t1 as [|ev t1 IH]; intros busy; simpl.
  - destruct busy; [discriminate|reflexivity].
  - destruct ev; try apply IH.
    + destruct busy; simpl; [discriminate|]. apply IH.
    + destruct busy; simpl; [discriminate|]. apply IH.
    + destruct busy; simpl; [|discriminate]. apply IH.
Qed.

(** Where neither the decoder nor the agent raises anything but errors,
    every turn ends normally. *)
Lemma iteration_ok (value : pyvalue) (a : A) :
  (forall s e, json_loads s = Raise e -> is_Exception e = true) ->
  (forall p a0 e, snd (assistant p a0) = Raise e -> is_Exception e = true) ->
  snd (iteration value a) = Ok tt.
Proof.
  intros Hjson Hagent. rewrite iteration_unfold.
  destruct (truthy value) eqn:Hv.
  - rewrite (process_truthy _ _ Hv).
    destruct (user_content value) as [content|e] eqn:Hu.
    + destruct (truthy content); [|reflexivity].
      destruct (assistant content a) as [a1 [response|e]] eqn:Ha; [reflexivity|].
      rewrite (Hagent content a e) by (rewrite Ha; reflexivity). reflexivity.
    + destruct (user_content_raises _ _ Hu) as [->|[s Hs]]; [reflexivity|].
      rewrite (Hjson s e Hs). reflexivity.
  - rewrite (process_falsy _ _ Hv). reflexivity.
Qed.

(** ... and the loop fetches every delivered message and ends as the
    consumer does. *)
Lemma async_for_fetches_all (deliveries : list pyvalue) (a : A) :
  (forall s e, json_loads s = Raise e -> is_Exception e = true) ->
  (forall p a0 e, snd (assistant p a0) = Raise e -> is_Exception e = true) ->
  exists a1 t, async_for deliveries Exhausted a = (a1, t, Ok tt)
               /\ fetched t = deliveries.
Proof.
  intros Hjson Hagent. revert a.
  induction deliveries as [|value rest IH]; intros a.
  - exists a, []. split; reflexivity.
  - rewrite async_for_cons.
    pose proof (iteration_ok value a Hjson Hagent) as Hok.
    pose proof (iteration_trace value a) as (Hf & _).
    destruct (iteration value a) as [[a1 t1] r]. simpl in Hok, Hf. subst r.
    destruct (IH a1) as (a2 & t2 & -> & Hf2).
    exists a2, (Fetch value :: t1 ++ t2). split; [reflexivity|].
    change (fetched (Fetch value :: t1 ++ t2)) with (value :: fetched (t1 ++ t2)).
    rewrite fetched_app, Hf, Hf2. reflexivity.
Qed.

(** Where a message is fetched after events that fetch none, those events
    have all happened before the fetch. *)
Lemma fetch_split (evs rest before after : list event) (value : pyvalue) :
  fetched evs = [] ->
  evs ++ rest = before ++ Fetch value :: after ->
  exists between, before = evs ++ between /\ rest = between ++ Fetch value :: after.
Proof.
  revert before. induction evs as [|ev evs IH]; intros before Hf Heq.
  - exists before. split; [reflexivity | exact Heq].
  - destruct before as [|ev' before]; simpl in Heq.
    + injection Heq as -> _. discriminate Hf.
    + injection Heq as <- Heq.
      assert (Hf' : fetched evs = []) by (destruct ev; [discriminate Hf | exact Hf ..]).
      destruct (IH before Hf' Heq) as (between & -> & ->).
      exists between. split; reflexivity.
Qed.

(** C7: the loop takes the messages one at a time and in the order of
    delivery.  The messages fetched are an initial part of the deliveries
    (all of them when the loop ends normally), the prompts sent to the
    agent are those of the fetched messages, in that order, and no message
    is fetched and no call is made while a call is in flight.  At the
    moment any message is fetched, the agent has been called with the
    prompt of every message fetched before it, and each of those calls has
    returned.  The run is exactly the sequence of turns of [turn_by_turn]:
    the trace is, for each message taken in the order of delivery, the
    fetch of the message followed by the events of its turn, and the state
    left and the outcome are those of the turns; within the turn of a
    message no other message is fetched, the agent is called with the
    prompt of that message and with nothing else (not at all when the
    message has no prompt), and the call has returned. *)
Theorem C7_in_order_one_at_a_time
    (deliveries : list pyvalue) (ending : consumer_end) (a : A) :
  let t := snd (fst (async_for deliveries ending a)) in
  fetched t `prefix_of` deliveries
  /\ called t = omap prompt_of (fetched t)
  /\ one_at_a_time false t = true
  /\ match snd (async_for deliveries ending a) with
     | Ok _ => fetched t = deliveries
     | Raise _ => True
     end
  /\ (forall before value after,
        t = before ++ Fetch value :: after ->
        called before = omap prompt_of (fetched before)
        /\ one_at_a_time false before = true)
  /\ let '(a', turns, r) := turn_by_turn deliveries ending a in
     async_for deliveries ending a = (a', trace_of_turns turns, r)
     /\ Forall (fun turn =>
                  fetched (snd turn) = []
                  /\ called (snd turn) =
                     match prompt_of (fst turn) with
                     | Some content => [content]
                     | None => []
                     end
                  /\ one_at_a_time false (snd turn) = true) turns.
Proof.
  revert a. induction deliveries as [|value rest IH]; intros a.
  - assert (Hnil : forall before value after,
              [] = before ++ Fetch value :: after ->
              called before = omap prompt_of (fetched before)
              /\ one_at_a_time false before = true)
      by (intros [|? ?] ? ? Heq; discriminate Heq).
    simpl. destruct ending; simpl;
      (split; [apply prefix_nil|]); repeat (split; auto).
  - cbv zeta. rewrite async_for_cons.
    change (turn_by_turn (value :: rest) ending a) with
      (match iteration value a with
       | (a1, evs, Ok _) =>
           let '(a2, turns, r) := turn_by_turn rest ending a1 in
           (a2, (value, evs) :: turns, r)
       | (a1, evs, Raise e) => (a1, [(value, evs)], Raise e)
       end).
    pose proof (iteration_trace value a) as (Hf & Hc & Hs & _).
    destruct (iteration value a) as [[a1 t1] [[]|e]]; simpl in Hf, Hc, Hs.
    + specialize (IH a1). cbv zeta in IH.
      destruct (turn_by_turn rest ending a1) as [[a2' turns] r'].
      destruct (async_for rest ending a1) as [[a2 t2] r].
      simpl in IH. destruct IH as (IHf & IHc & IHs & IHr & IHb & IHe & IHt).
      injection IHe as -> -> ->. simpl.
      change (fetched (Fetch value :: t1 ++ trace_of_turns turns))
        with (value :: fetched (t1 ++ trace_of_turns turns)).
      change (called (Fetch value :: t1 ++ trace_of_turns turns))
        with (called (t1 ++ trace_of_turns turns)).
      rewrite fetched_app, called_app, Hf, Hc, IHc, (one_at_a_time_app _ _ _ Hs).
      simpl. split; [|split; [|split; [|split; [|split; [|split]]]]].
      * apply prefix_cons. exact IHf.
      * destruct (prompt_of value); reflexivity.
      * exact IHs.
      * destruct r'; [rewrite IHr; reflexivity | exact I].
      * intros [|ev before] next after Heq; [split; reflexivity|].
        simpl in Heq. injection Heq as <- Heq.
        destruct (fetch_split _ _ _ _ _ Hf Heq) as (between & -> & Hrest).
        destruct (IHb _ _ _ Hrest) as (Hcb & Hsb).
        change (fetched (Fetch value :: t1 ++ between))
          with (value :: fetched (t1 ++ between)).
        change (called (Fetch value :: t1 ++ between))
          with (called (t1 ++ between)).
        rewrite fetched_app, called_app, Hf, Hc, Hcb. simpl.
        rewrite (one_at_a_time_app _ _ _ Hs).
        split; [destruct (prompt_of value); reflexivity | exact Hsb].
      * reflexivity.
      * constructor; [|exact IHt]. simpl. auto.
    + simpl. rewrite app_nil_r.
      change (fetched (Fetch value :: t1)) with (value :: fetched t1).
      change (called (Fetch value :: t1)) with (called t1).
      rewrite Hf, Hc. simpl. split; [|split; [|split; [|split; [|split; [|split]]]]].
      * apply prefix_cons, prefix_nil.
      * destruct (prompt_of value); reflexivity.
      * exact Hs.
      * exact I.
      * intros [|ev before] next after Heq; [split; reflexivity|].
        simpl in Heq. injection Heq as <- Heq.
        rewrite Heq, fetched_app in Hf. simpl in Hf.
        destruct (fetched before); discriminate Hf.
      * reflexivity.
      * constructor; [|constructor]. simpl. auto.
Qed.

(* --------------------------------------------------------------------- *)
(** *** [main] and its shutdown *)

Context (consumer_stop producer_stop : result unit).

#[local] Abbreviation main := (main json_loads A assistant consumer_stop producer_stop).

Lemma async_for_no_stop (deliveries : list pyvalue) (ending : consumer_end) (a : A) :
  let t := snd (fst (async_for deliveries ending a)) in
  count is_stop_consumer t = O /\ count is_stop_producer t = O.
Proof.
  revert a. induction deliveries as [|value rest IH]; intros a.
  - simpl. destruct ending; split; reflexivity.
  - cbv zeta. rewrite async_for_cons.
    pose proof (iteration_trace value a) as (_ & _ & _ & Hc & Hp).
    destruct (iteration value a) as [[a1 t1] [[]|e]]; simpl in Hc, Hp.
    + specialize (IH a1). cbv zeta in IH.
      destruct (async_for rest ending a1) as [[a2 t2] r]. simpl in IH. simpl.
      rewrite !count_app, Hc, Hp. exact IH.
    + simpl. split; assumption.
Qed.

(** [main], handler by handler. *)
Lemma main_unfold (deliveries : list pyvalue) (ending : consumer_end) (a : A) :
  main deliveries ending a =
  let '(a1, t1, r1) := async_for deliveries ending a in
  let '(t2, r2) :=
    match r1 with
    | Ok x => ([], Ok x)
    | Raise e =>
        if is_KeyboardInterrupt e
        then ([Log INFO "Received interrupt signal, shutting down..." []], Ok tt)
        else if is_Exception e
        then ([Log ERROR "Fatal error: %s" [AExn e]], Ok tt)
        else ([], Raise e)
    end in
  let '(t3, r3) :=
    match consumer_stop with
    | Raise e => ([Stop_consumer], Raise e)
    | Ok _ =>
        match producer_stop with
        | Raise e => ([Stop_consumer; Stop_producer], Raise e)
        | Ok _ =>
            ([Stop_consumer; Stop_producer;
              Log INFO "Consumer and producer stopped." []], r2)
        end
    end in
  (a1, banner ++ t1 ++ t2 ++ t3, r3).
Proof.
  unfold Agent.main, try_finally, try_except, shutdown, banner.
  unfold mbind, M_bind, emit, lift. simpl.
  fold (async_for deliveries ending).
  destruct (async_for deliveries ending a) as [[a1 t1] [[]|e]]; simpl;
    [| destruct (is_KeyboardInterrupt e); simpl;
       [| destruct (is_Exception e); simpl]];
    (destruct consumer_stop as [[]|ec]; [destruct producer_stop as [[]|ep]|]);
    simpl; rewrite <- ?app_assoc, ?app_nil_r; reflexivity.
Qed.

(** C4, amended: on every way out of the loop [main] enters
    [consumer.stop()] exactly once.  When that call returns,
    [producer.stop()] is entered exactly once; when it raises,
    [producer.stop()] is not entered.  An exception raised by either call
    is not caught: nothing is written after it and it leaves [main]. *)
Theorem C4_shutdown_sequence (deliveries : list pyvalue) (ending : consumer_end) (a : A) :
  let t := snd (fst (main deliveries ending a)) in
  let r := snd (main deliveries ending a) in
  count is_stop_consumer t = 1%nat
  /\ match consumer_stop with
     | Raise e =>
         count is_stop_producer t = O /\ last t = Some Stop_consumer /\ r = Raise e
     | Ok _ =>
         count is_stop_producer t = 1%nat
         /\ match producer_stop with
            | Raise e => last t = Some Stop_producer /\ r = Raise e
            | Ok _ => last t = Some (Log INFO "Consumer and producer stopped." [])
            end
     end.
Proof.
  cbv zeta. rewrite main_unfold.
  pose proof (async_for_no_stop deliveries ending a) as [Hc Hp]. cbv zeta in Hc, Hp.
  destruct (async_for deliveries ending a) as [[a1 t1] r1]. simpl in Hc, Hp.
  set (outcome := match r1 with
                  | Ok x => ([], Ok x)
                  | Raise e =>
                      if is_KeyboardInterrupt e
                      then ([Log INFO "Received interrupt signal, shutting down..." []], Ok tt)
                      else if is_Exception e
                      then ([Log ERROR "Fatal error: %s" [AExn e]], Ok tt)
                      else ([], Raise e)
                  end).
  assert (Ht2 : count is_stop_consumer (fst outcome) = O
                /\ count is_stop_producer (fst outcome) = O).
  { subst outcome. destruct r1 as [x|e]; [split; reflexivity|].
    destruct (is_KeyboardInterrupt e); [split; reflexivity|].
    destruct (is_Exception e); split; reflexivity. }
  destruct outcome as [t2 r2]. simpl in Ht2. destruct Ht2 as [Hc2 Hp2].
  destruct consumer_stop as [[]|ec]; [destruct producer_stop as [[]|ep]|];
    cbn [fst snd]; rewrite !count_app, Hc, Hp, Hc2, Hp2, !app_assoc, last_app_cons;
    repeat split; reflexivity.
Qed.

End Facts.

(* ===================================================================== *)
(** ** Facts about [create_ssl_context] *)
(* ===================================================================== *)

Lemma land_lor_left (a b : Z) : Z.land (Z.lor a b) a = a.
Proof.
  apply Z.bits_inj'. intros n Hn.
  rewrite Z.land_spec, Z.lor_spec. destruct (Z.testbit a n), (Z.testbit b n); reflexivity.
Qed.

Lemma land_lor_right (a b : Z) : Z.land (Z.lor a b) b = b.
Proof. rewrite Z.lor_comm. apply land_lor_left. Qed.

(** C6, amended: whatever defaults the library starts a client context
    from, the builder returns one context, a function of those defaults
    alone: its option bits are the default ones with those of
    [OP_NO_SSLv2] and [OP_NO_SSLv3] set, its protocol floor is the
    default one, hostname checking is off, certificate verification is
    [CERT_NONE], and the default certificates are loaded. *)
Theorem C6_create_ssl_context (OP_NO_SSLv2 OP_NO_SSLv3 default_options : Z)
    (floor : Ssl.TLSVersion) :
  exists ctx,
    Ssl.create_ssl_context OP_NO_SSLv2 OP_NO_SSLv3 default_options floor = Ok ctx
    /\ Ssl.options ctx = Z.lor default_options (Z.lor OP_NO_SSLv2 OP_NO_SSLv3)
    /\ Z.land (Ssl.options ctx) OP_NO_SSLv2 = OP_NO_SSLv2
    /\ Z.land (Ssl.options ctx) OP_NO_SSLv3 = OP_NO_SSLv3
    /\ Ssl.minimum_version ctx = floor
    /\ Ssl.check_hostname ctx = false
    /\ Ssl.verify_mode ctx = Ssl.CERT_NONE
    /\ Ssl.default_certs ctx = true.
Proof.
  eexists. split; [reflexivity|]. simpl.
  split; [reflexivity|].
  split.
  { rewrite Z.lor_assoc, (Z.lor_comm default_options), <- Z.lor_assoc.
    apply land_lor_left. }
  split.
  { rewrite Z.lor_assoc. apply land_lor_right. }
  repeat split.
Qed.

(** C6 as stated fails: from library defaults without a TLS 1.2 floor (an
    interpreter built to take the defaults of its OpenSSL) the builder
    returns a context that is not held to TLS 1.2 and later. *)
Lemma C6_counterexample_tls_floor :
  exists ctx,
    Ssl.create_ssl_context Sample.OP_NO_SSLv2 Sample.OP_NO_SSLv3
      Sample.OP_NO_SSLv3 Ssl.MINIMUM_SUPPORTED = Ok ctx
    /\ Ssl.tls12_only Sample.OP_NO_TLSv1 Sample.OP_NO_TLSv1_1 ctx = false.
Proof.
  eexists. split; reflexivity.
Qed.

(** Where the library default is held to TLS 1.2 and later, so is the
    context the builder returns. *)
Lemma create_ssl_context_keeps_floor
    (OP_NO_SSLv2 OP_NO_SSLv3 default_options : Z) (floor : Ssl.TLSVersion) (ctx : Ssl.SSLContext) :
  floor = Ssl.TLSv1_2 ->
  Ssl.create_ssl_context OP_NO_SSLv2 OP_NO_SSLv3 default_options floor = Ok ctx ->
  forall t1 t11, Ssl.tls12_only t1 t11 ctx = true.
Proof.
  intros -> [= <-] t1 t11. reflexivity.
Qed.

(* ===================================================================== *)
(** ** The program on sample messages *)
(* ===================================================================== *)

Lemma value_deserializer_empty
    (json_loads : string -> result pyvalue) (bytes_decode : string -> result string) :
  value_deserializer json_loads bytes_decode None = Ok VNone
  /\ value_deserializer json_loads bytes_decode (Some "") = Ok VNone.
Proof. split; reflexivity. Qed.

(** Payloads and the values the consumer delivers for them; bytes that
    are not UTF-8 make the deserializer raise. *)
Example deserializer_samples :
  value_deserializer Json.loads Json.decode (Some Sample.hi) = Ok (VDict Sample.hi_dict)
  /\ value_deserializer Json.loads Json.decode (Some "null") = Ok VNone
  /\ value_deserializer Json.loads Json.decode (Some (Json.dq "''")) = Ok (VStr "")
  /\ value_deserializer Json.loads Json.decode (Some "{}") = Ok (VDict ∅)
  /\ value_deserializer Json.loads Json.decode (Some "0") = Ok (VInt 0)
  /\ value_deserializer Json.loads Json.decode (Some "false") = Ok (VBool false)
  /\ value_deserializer Json.loads Json.decode (Some (Json.byte 255))
     = Raise (OtherException "UnicodeDecodeError").
Proof. repeat split; vm_compute; reflexivity. Qed.

(** The scenarios of the specification. *)
Example scenario_envelope :
  Json.loads (Json.dq "{'type':'user_message','content':'hello'}") =
    Ok (VDict (<["type" := VStr "user_message"]> (<["content" := VStr "hello"]> ∅)))
  /\ called (snd (fst (iteration Json.loads _ Sample.assistant
       (VDict (<["type" := VStr "user_message"]> (<["content" := VStr "hello"]> ∅))) [])))
     = [VStr "hello"].
Proof. split; vm_compute; reflexivity. Qed.

Example scenario_bare_text :
  user_content Json.loads (VStr "hello") = Ok (VStr "hello").
Proof. vm_compute. reflexivity. Qed.

Example scenario_control_message :
  user_content Json.loads (VDict Sample.ping_dict) = Ok VNone
  /\ called (snd (fst (iteration Json.loads _ Sample.assistant (VDict Sample.ping_dict) []))) = [].
Proof. split; vm_compute; reflexivity. Qed.

Example scenario_encoded_envelope :
  user_content Json.loads (VStr Sample.hi) = Ok (VStr "hi").
Proof. vm_compute. reflexivity. Qed.

(** C2 as stated fails: the text of a control message is not classified
    as the decoded mapping is; the mapping yields no content, the text
    yields itself and is sent to the agent. *)
Lemma C2_counterexample_unrecognized_text :
  Json.loads Sample.ping = Ok (VDict Sample.ping_dict)
  /\ user_content Json.loads (VDict Sample.ping_dict) = Ok VNone
  /\ user_content Json.loads (VStr Sample.ping) = Ok (VStr Sample.ping)
  /\ called (snd (fst (iteration Json.loads _ Sample.assistant (VStr Sample.ping) [])))
     = [VStr Sample.ping].
Proof. repeat split; vm_compute; reflexivity. Qed.

Lemma C2_witness :
  Json.loads Sample.hi = Ok (VDict Sample.hi_dict)
  /\ user_content Json.loads (VStr Sample.hi) = Ok (VStr "hi")
  /\ user_content Json.loads (VDict Sample.hi_dict) = Ok (VStr "hi").
Proof.
  assert (H : Json.loads Sample.hi = Ok (VDict Sample.hi_dict)) by (vm_compute; reflexivity).
  split; [exact H|].
  exact (C2_text_envelope Json.loads Sample.hi Sample.hi_dict H).
Defined.

Lemma C3_witness :
  async_for Json.loads _ Sample.assistant [VStr "a"] Exhausted []
    = ([VStr "a"], Fetch (VStr "a") :: Sample.answered "a", Ok tt)
  /\ process Json.loads _ Sample.assistant (VStr "boom") [VStr "a"]
    = ([VStr "a"; VStr "boom"], Sample.failed "boom" (OtherException "RuntimeError"),
       Raise (OtherException "RuntimeError"))
  /\ is_Exception (OtherException "RuntimeError") = true
  /\ async_for Json.loads _ Sample.assistant
       ([VStr "a"] ++ VStr "boom" :: [VStr "b"]) Exhausted []
    = ([VStr "a"; VStr "boom"; VStr "b"],
       (Fetch (VStr "a") :: Sample.answered "a")
         ++ Fetch (VStr "boom") :: Sample.failed "boom" (OtherException "RuntimeError")
         ++ [Log ERROR "Error processing message: %s" [AExn (OtherException "RuntimeError")];
             Print_exc (OtherException "RuntimeError")]
         ++ Fetch (VStr "b") :: Sample.answered "b",
       Ok tt).
Proof.
  assert (H1 : async_for Json.loads _ Sample.assistant [VStr "a"] Exhausted []
               = ([VStr "a"], Fetch (VStr "a") :: Sample.answered "a", Ok tt))
    by (vm_compute; reflexivity).
  assert (H2 : process Json.loads _ Sample.assistant (VStr "boom") [VStr "a"]
               = ([VStr "a"; VStr "boom"],
                  Sample.failed "boom" (OtherException "RuntimeError"),
                  Raise (OtherException "RuntimeError")))
    by (vm_compute; reflexivity).
  split; [exact H1|]. split; [exact H2|]. split; [reflexivity|].
  exact (C3_failure_isolated Json.loads _ Sample.assistant
           [VStr "a"] [VStr "b"] (VStr "boom") Exhausted
           [] _ _ _ _ _ H1 H2 eq_refl).
Defined.

(** C4 as stated fails: when [consumer.stop()] raises, [producer.stop()]
    is not entered, and the exception leaves [main] without a record. *)
Lemma C4_counterexample_consumer_stop_raises :
  main Json.loads _ Sample.assistant (Raise Sample.KafkaError) (Ok tt) [] Exhausted []
    = ([], banner ++ [Stop_consumer], Raise Sample.KafkaError)
  /\ count is_stop_producer (banner ++ [Stop_consumer]) = O.
Proof. split; vm_compute; reflexivity. Qed.

(** C5 as stated fails: the empty text is not valid JSON, yet it is
    neither extracted nor sent to the agent; its turn ends at once. *)
Lemma C5_counterexample_empty_text :
  Json.loads "" = Raise JSONDecodeError
  /\ iteration Json.loads _ Sample.assistant (VStr "") [] = ([], [], Ok tt).
Proof. split; vm_compute; reflexivity. Qed.

Lemma C5_witness :
  "hello" <> ""
  /\ Json.loads "hello" = Raise JSONDecodeError
  /\ user_content Json.loads (VStr "hello") = Ok (VStr "hello")
  /\ exists t r,
       iteration Json.loads _ Sample.assistant (VStr "hello") [] =
       ([VStr "hello"],
        [Log INFO "Received message: %s" [AVal (VStr "hello")];
         Log INFO "👤 User: %s" [AVal (VStr "hello")];
         Call (VStr "hello"); Return (Ok (VStr "ok"))] ++ t,
        r).
Proof.
  assert (H1 : "hello" <> "") by discriminate.
  assert (H2 : Json.loads "hello" = Raise JSONDecodeError) by (vm_compute; reflexivity).
  split; [exact H1|]. split; [exact H2|].
  exact (C5_plain_text_verbatim Json.loads _ Sample.assistant "hello" [] H1 H2).
Defined.

(** A trace that fetches a second message before the first has been sent
    to the agent keeps a single call in flight and sends the prompts in
    order, yet at the second fetch the call for the first message has not
    been made: such a trace is not one of the loop. *)
Example fetch_ahead_is_not_turn_by_turn :
  let t := [Fetch (VStr "a"); Fetch (VStr "b");
            Call (VStr "a"); Return (Ok (VStr "ok"));
            Call (VStr "b"); Return (Ok (VStr "ok"))] in
  one_at_a_time false t = true
  /\ called t = omap (prompt_of Json.loads) (fetched t)
  /\ t = [Fetch (VStr "a")] ++ Fetch (VStr "b") :: skipn 2 t
  /\ called [Fetch (VStr "a")]
     <> omap (prompt_of Json.loads) (fetched [Fetch (VStr "a")]).
Proof.
  cbv zeta. split; [reflexivity|]. split; [vm_compute; reflexivity|].
  split; [reflexivity|]. vm_compute. discriminate.
Qed.

(** Two texts delivered in a row: when the second is fetched, the agent
    has been called with the first and has answered. *)
Lemma C7_witness :
  snd (fst (async_for Json.loads _ Sample.assistant
              [VStr "a"; VStr "b"] Exhausted []))
    = (Fetch (VStr "a") :: Sample.answered "a")
        ++ Fetch (VStr "b") :: Sample.answered "b"
  /\ called (Fetch (VStr "a") :: Sample.answered "a")
     = omap (prompt_of Json.loads) (fetched (Fetch (VStr "a") :: Sample.answered "a"))
  /\ called (Fetch (VStr "a") :: Sample.answered "a") = [VStr "a"]
  /\ one_at_a_time false (Fetch (VStr "a") :: Sample.answered "a") = true.
Proof.
  assert (H : snd (fst (async_for Json.loads _ Sample.assistant
                          [VStr "a"; VStr "b"] Exhausted []))
              = (Fetch (VStr "a") :: Sample.answered "a")
                  ++ Fetch (VStr "b") :: Sample.answered "b")
    by (vm_compute; reflexivity).
  pose proof (C7_in_order_one_at_a_time Json.loads _ Sample.assistant
                [VStr "a"; VStr "b"] Exhausted []) as (_ & _ & _ & _ & Hbefore & _).
  destruct (Hbefore _ _ _ H) as [Hc Hs].
  split; [exact H|]. split; [exact Hc|]. split; [reflexivity|]. exact Hs.
Defined.

Lemma C8_witness :
  has_tag Sample.blank_dict = true
  /\ Sample.blank_dict !! "content" = Some (VStr "")
  /\ truthy (VStr "") = false
  /\ user_content Json.loads (VDict Sample.blank_dict) = Ok (VStr "")
  /\ iteration Json.loads _ Sample.assistant (VDict Sample.blank_dict) []
     = ([], [Log INFO "Received message: %s" [AVal (VDict Sample.blank_dict)]], Ok tt).
Proof.
  assert (H1 : has_tag Sample.blank_dict = true) by (vm_compute; reflexivity).
  assert (H2 : Sample.blank_dict !! "content" = Some (VStr "")) by (vm_compute; reflexivity).
  split; [exact H1|]. split; [exact H2|]. split; [reflexivity|].
  exact (C8_falsy_content_dropped Json.loads _ Sample.assistant
           Sample.blank_dict (VStr "") [] H1 H2 eq_refl).
Defined.

Lemma C9_witness :
  Json.loads "" = Raise JSONDecodeError
  /\ Json.loads "42" = Ok (VInt 42)
  /\ is_dict (VInt 42) = false
  /\ user_content Json.loads (VStr "42") = Raise AttributeError
  /\ iteration Json.loads _ Sample.assistant (VStr "42") []
     = ([],
        [Log INFO "Received message: %s" [AVal (VStr "42")];
         Log ERROR "Error processing message: %s" [AExn AttributeError];
         Print_exc AttributeError],
        Ok tt).
Proof.
  assert (H1 : Json.loads "" = Raise JSONDecodeError) by (vm_compute; reflexivity).
  assert (H2 : Json.loads "42" = Ok (VInt 42)) by (vm_compute; reflexivity).
  split; [exact H1|]. split; [exact H2|]. split; [reflexivity|].
  exact (C9_text_non_mapping Json.loads _ Sample.assistant "42" (VInt 42) [] H1 H2 eq_refl).
Defined.

Lemma C10_witness :
  truthy (VDict ∅) = false
  /\ iteration Json.loads _ Sample.assistant (VDict ∅) [] = ([], [], Ok tt)
  /\ forall rest ending,
       async_for Json.loads _ Sample.assistant (VDict ∅ :: rest) ending [] =
       let '(a1, t, r) := async_for Json.loads _ Sample.assistant rest ending [] in
       (a1, Fetch (VDict ∅) :: t, r).
Proof.
  split; [reflexivity|].
  exact (C10_falsy_message_skipped Json.loads _ Sample.assistant (VDict ∅) [] eq_refl).
Defined.

(* ===================================================================== *)
(** ** Facts about [deep_merge] *)
(* ===================================================================== *)

Section MergeFacts.
Import Config.

Lemma merge_value_dicts (m u : gmap string pyvalue) :
  merge_value (Some (VDict m)) (VDict u) = VDict (deep_merge m u).
Proof. reflexivity. Qed.

Lemma merge_value_leaf (old : option pyvalue) (value : pyvalue) :
  is_dict value = false -> merge_value old value = value.
Proof. destruct value, old as [[]|]; try reflexivity; discriminate. Qed.

Lemma merge_value_over_leaf (old : option pyvalue) (value : pyvalue) :
  match old with Some (VDict _) => False | _ => True end ->
  merge_value old value = value.
Proof. destruct old as [[]|], value; try reflexivity; contradiction. Qed.

(** The loop of [deep_merge], key by key. *)
Lemma deep_merge_lookup (base update : gmap string pyvalue) (key : string) :
  deep_merge base update !! key =
  match update !! key with
  | Some value => Some (merge_value (base !! key) value)
  | None => base !! key
  end.
Proof.
  unfold deep_merge.
  apply (map_fold_weak_ind (fun merged (seen : gmap string pyvalue) =>
    forall k, merged !! k =
      match seen !! k with
      | Some value => Some (merge_value (base !! k) value)
      | None => base !! k
      end)).
  - intros k. rewrite lookup_empty. reflexivity.
  - intros i x seen merged Hi IH k.
    destruct (decide (i = k)) as [->|Hne].
    + rewrite !lookup_insert_eq, (IH k), Hi. reflexivity.
    + rewrite !lookup_insert_ne by exact Hne. apply IH.
Qed.

Lemma depth_lookup (d : gmap string pyvalue) (key : string) (v : pyvalue) :
  d !! key = Some v -> (depth v < depth (VDict d))%nat.
Proof.
  simpl. revert key v.
  apply (map_fold_weak_ind (fun r (m : gmap string pyvalue) =>
    forall key v, m !! key = Some v -> (depth v < S r)%nat)).
  - intros key v. rewrite lookup_empty. discriminate.
  - intros i x m r Hi IH key v.
    destruct (decide (i = key)) as [->|Hne].
    + rewrite lookup_insert_eq. intros [= ->]. lia.
    + rewrite lookup_insert_ne by exact Hne. intros Hv.
      specialize (IH key v Hv). lia.
Qed.

(** X1: [deep_merge] loses no key and invents none: the keys of the
    result are those of [base] together with those of [update]. *)
Theorem X1_deep_merge_keys (base update : gmap string pyvalue) :
  dom (deep_merge base update) = dom base ∪ dom update.
Proof.
  apply set_eq. intros key.
  rewrite elem_of_union, !elem_of_dom, deep_merge_lookup.
  destruct (update !! key) as [value|], (base !! key) as [old|];
    (split; [intros H | intros [H|H]]);
    solve [ exact H | left; exact H | right; exact H
          | eexists; reflexivity | left; eexists; reflexivity
          | right; eexists; reflexivity ].
Qed.

(** X2: merging with an empty mapping changes nothing, on either side. *)
Theorem X2_deep_merge_empty (d : gmap string pyvalue) :
  deep_merge d ∅ = d /\ deep_merge ∅ d = d.
Proof.
  split; apply map_eq; intros key; rewrite deep_merge_lookup.
  - rewrite lookup_empty. reflexivity.
  - rewrite lookup_empty. destruct (d !! key) as [value|]; [|reflexivity].
    rewrite merge_value_over_leaf by exact I. reflexivity.
Qed.

Lemma merge_value_self (n : nat) :
  forall v, (depth v <= n)%nat -> merge_value (Some v) v = v.
Proof.
  induction n as [|n IH]; intros v Hn.
  - destruct v; try reflexivity. simpl in Hn. lia.
  - destruct v as [| | | | | |d]; try reflexivity.
    rewrite merge_value_dicts. f_equal.
    apply map_eq. intros key. rewrite deep_merge_lookup.
    destruct (d !! key) as [w|] eqn:Hw; [|reflexivity].
    rewrite IH; [reflexivity|].
    apply depth_lookup in Hw. lia.
Qed.

Lemma merge_value_again (n : nat) :
  forall v old, (depth v <= n)%nat ->
    merge_value (Some (merge_value old v)) v = merge_value old v.
Proof.
  induction n as [|n IH]; intros v old Hn.
  - destruct v; try (simpl in Hn; lia);
      rewrite !merge_value_leaf by reflexivity; reflexivity.
  - destruct v as [| | | | | |u];
      try (rewrite !merge_value_leaf by reflexivity; reflexivity).
    destruct old as [[| | | | | |m]|];
      try (match goal with
           | |- context [merge_value ?o (VDict u)] =>
               rewrite !(merge_value_over_leaf o (VDict u) I)
           end;
           apply (merge_value_self (S n)); exact Hn).
    rewrite !merge_value_dicts. f_equal.
    apply map_eq. intros key. rewrite !deep_merge_lookup.
    destruct (u !! key) as [w|] eqn:Hw; [|reflexivity].
    rewrite IH; [reflexivity|].
    apply depth_lookup in Hw. lia.
Qed.

(** X3: applying the same update twice is applying it once, and merging
    a mapping into itself gives it back. *)
Theorem X3_deep_merge_idempotent (base update : gmap string pyvalue) :
  deep_merge (deep_merge base update) update = deep_merge base update
  /\ deep_merge update update = update.
Proof.
  split; apply map_eq; intros key; rewrite !deep_merge_lookup.
  - destruct (update !! key) as [w|]; [|reflexivity].
    rewrite (merge_value_again (depth w)); [reflexivity|lia].
  - destruct (update !! key) as [w|]; [|reflexivity].
    rewrite (merge_value_self (depth w)); [reflexivity|lia].
Qed.

(** X4: whatever [update] holds that is not a mapping, at any depth, the
    result holds at the same path: the update always wins. *)
Theorem X4_deep_merge_update_wins
    (keys : list string) (base update : gmap string pyvalue) (v : pyvalue) :
  keys <> [] ->
  lookup_path keys (VDict update) = Some v ->
  is_dict v = false ->
  lookup_path keys (VDict (deep_merge base update)) = Some v.
Proof.
  revert base update. induction keys as [|key more IH]; intros base update Hne Hv Hleaf;
    [contradiction|].
  simpl in Hv |- *. rewrite deep_merge_lookup.
  destruct (update !! key) as [w|]; [|discriminate].
  destruct more as [|key' more'].
  - injection Hv as ->. rewrite merge_value_leaf by exact Hleaf. reflexivity.
  - destruct w as [| | | | | |u]; try discriminate.
    destruct (base !! key) as [[| | | | | |m]|];
      try (rewrite merge_value_over_leaf by exact I; exact Hv).
    rewrite merge_value_dicts. apply IH; [discriminate|exact Hv|exact Hleaf].
Qed.

(** X5: what [base] holds at a path survives when [update] holds nothing
    there and only mappings above it. *)
Theorem X5_deep_merge_base_kept
    (keys : list string) (base update : gmap string pyvalue) (v : pyvalue) :
  lookup_path keys (VDict base) = Some v ->
  lookup_path keys (VDict update) = None ->
  (forall above w, above `prefix_of` keys ->
     lookup_path above (VDict update) = Some w -> is_dict w = true) ->
  lookup_path keys (VDict (deep_merge base update)) = Some v.
Proof.
  revert base update. induction keys as [|key more IH]; intros base update Hb Hu Habove;
    [discriminate|].
  simpl in Hb, Hu |- *. rewrite deep_merge_lookup.
  destruct (base !! key) as [bw|] eqn:Hbk; [|discriminate].
  destruct (update !! key) as [uw|] eqn:Huk; [|exact Hb].
  assert (Hd : is_dict uw = true).
  { apply (Habove [key]); [exists more; reflexivity|]. simpl. rewrite Huk. reflexivity. }
  destruct uw as [| | | | | |u]; try discriminate.
  destruct bw as [| | | | | |m];
    try (destruct more; [discriminate Hu | discriminate Hb]).
  rewrite merge_value_dicts. apply IH; [exact Hb|exact Hu|].
  intros above w [rest ->] Hw. apply (Habove (key :: above)).
  - exists rest. reflexivity.
  - simpl. rewrite Huk. exact Hw.
Qed.

End MergeFacts.

(* ===================================================================== *)
(** ** Facts about [validate_uri], [find_config] and [get_settings] *)
(* ===================================================================== *)

Section ConfigFacts.
Import Config.

Lemma strip_app (p s r : string) : Json.strip p s = Some r <-> s = p +:+ r.
Proof.
  revert s. induction p as [|a p IH]; intros s; simpl.
  - split; [intros [= ->]; reflexivity | intros ->; reflexivity].
  - destruct s as [|b s]; [split; discriminate|].
    destruct (Ascii.eqb_spec a b) as [->|Hne].
    + rewrite IH. split; [intros ->; reflexivity | intros [= ->]; reflexivity].
    + split; [discriminate | intros [= ? ?]; congruence].
Qed.

(** X6: [validate_uri] returns its argument unchanged or raises
    [ValueError]; it accepts exactly [None], the empty string and the
    strings that begin with [file://]. *)
Theorem X6_validate_uri (v : option string) :
  match validate_uri v with
  | Ok w => w = v /\ (v = None \/ v = Some "" \/ exists rest, v = Some ("file://" +:+ rest))
  | Raise e => e = ValueError /\ exists s, v = Some s /\ s <> ""
                 /\ forall rest, s <> "file://" +:+ rest
  end.
Proof.
  destruct v as [s|]; [|simpl; auto].
  unfold validate_uri, startswith.
  destruct (String.eqb_spec s "") as [->|Hne]; [simpl; auto|].
  destruct (Json.strip "file://" s) as [rest|] eqn:Hs; cbn [negb andb].
  - apply strip_app in Hs. subst s. split; [reflexivity|]. right. right. eauto.
  - split; [reflexivity|]. exists s. split; [reflexivity|]. split; [exact Hne|].
    intros rest Hrest. apply strip_app in Hrest. congruence.
Qed.

Context (cwd : path) (exists_ : path -> bool) (safe_load : path -> result pyvalue).
Context (S : Type) (Settings : pyvalue -> result S).

#[local] Abbreviation find_config_from := (find_config_from exists_).
#[local] Abbreviation find_config := (find_config cwd exists_).
#[local] Abbreviation merge_secrets := (merge_secrets exists_ safe_load).
#[local] Abbreviation config_file_for := (config_file_for cwd exists_).
#[local] Abbreviation load_settings := (load_settings cwd exists_ safe_load S Settings).
#[local] Abbreviation get_settings := (get_settings cwd exists_ safe_load S Settings).

Lemma suffix_cons_case {X} (l up : list X) (x : X) :
  l `suffix_of` x :: up -> l = x :: up \/ l `suffix_of` up.
Proof.
  intros [k Hk]. destruct k as [|y k]; simpl in Hk.
  - left. symmetry. exact Hk.
  - right. injection Hk as _ ->. exists k. reflexivity.
Qed.

(** X7: [find_config], which searches from the working directory, and
    the same search from any directory [dir]: it returns the configuration
    file of the nearest directory that has one, among [dir] and those
    above it, the root excepted; it returns [None] exactly when none of
    them has one.  A file in the root directory is never found. *)
Theorem X7_find_config_nearest (dir : path) :
  match find_config_from dir with
  | Some f =>
      exists above, above `suffix_of` dir /\ above <> []
        /\ f = "fastagent.config.yaml" :: above
        /\ exists_ f = true
        /\ forall nearer, nearer `suffix_of` dir ->
             (length above < length nearer)%nat ->
             exists_ ("fastagent.config.yaml" :: nearer) = false
  | None =>
      forall above, above `suffix_of` dir -> above <> [] ->
        exists_ ("fastagent.config.yaml" :: above) = false
  end.
Proof.
  induction dir as [|x up IH].
  - simpl. intros above Hs Hne. apply suffix_nil_inv in Hs. contradiction.
  - cbn [Config.find_config_from first_existing].
    change (joinpath (x :: up) "fastagent.config.yaml")
      with ("fastagent.config.yaml" :: x :: up).
    destruct (exists_ ("fastagent.config.yaml" :: x :: up)) eqn:Hhere.
    + exists (x :: up). split; [reflexivity|]. split; [discriminate|].
      split; [reflexivity|]. split; [exact Hhere|].
      intros nearer Hs Hlen. apply suffix_length in Hs. lia.
    + destruct (find_config_from up) as [f|].
      * destruct IH as (above & Hs & Hne & -> & Hex & Hnear).
        exists above. split; [apply suffix_cons_r; exact Hs|].
        split; [exact Hne|]. split; [reflexivity|]. split; [exact Hex|].
        intros nearer Hn Hlen.
        apply suffix_cons_case in Hn as [->|Hn]; [exact Hhere|].
        apply Hnear; assumption.
      * intros above Hs Hne.
        apply suffix_cons_case in Hs as [->|Hs]; [exact Hhere|].
        apply IH; assumption.
Qed.




Lemma load_settings_cache (config_path : option upath) :
  let '(cache', _, r) := load_settings config_path in
  match r with
  | Ok s => cache' = Some s
  | Raise _ => cache' = None
  end.
Proof.
  unfold Config.load_settings, store.
  destruct (config_file_for _) as [f|]; [|destruct (Settings _); reflexivity].
  destruct (exists_ (absolute cwd f)); cbn [negb];
    [|destruct (Settings _); reflexivity].
  destruct (safe_load _) as [doc|e]; [|reflexivity].
  destruct (merge_secrets _ _) as [t [kwargs|e]]; [|reflexivity].
  destruct (Settings kwargs); reflexivity.
Qed.

(** Unless it answers from the cache, a call without [json_config]
    leaves in the cache what it returns, and nothing when it raises. *)
Lemma get_settings_cache (config_path : option upath) (cache : option S) :
  let '(cache', _, r) := get_settings config_path None cache in
  match r with
  | Ok s => cache' = Some s
  | Raise _ => cache' = None
  end.
Proof.
  unfold Config.get_settings.
  destruct config_path as [p|], cache as [cached|]; try reflexivity;
    apply load_settings_cache.
Qed.

(** X8: what a call without [json_config] returns is what the cache
    holds afterwards, and the next call without arguments returns it
    again without opening a file or printing. *)
Theorem X8_get_settings_cached
    (config_path : option upath) (cache cache' : option S) (t : list cevent) (s : S) :
  get_settings config_path None cache = (cache', t, Ok s) ->
  cache' = Some s /\ get_settings None None cache' = (cache', [], Ok s).
Proof.
  intros H. pose proof (get_settings_cache config_path cache) as Hc.
  rewrite H in Hc. subst cache'. split; reflexivity.
Qed.





End ConfigFacts.

(* ===================================================================== *)
(** ** More facts about the classifier, the loop and [main] *)
(* ===================================================================== *)

Section MoreFacts.

Context (json_loads : string -> result pyvalue).
Context (A : Type) (assistant : pyvalue -> A -> A * result pyvalue).
Context (consumer_stop producer_stop : result unit).

#[local] Abbreviation user_content := (user_content json_loads).
#[local] Abbreviation process := (process json_loads A assistant).
#[local] Abbreviation iteration := (iteration json_loads A assistant).
#[local] Abbreviation async_for := (async_for json_loads A assistant).
#[local] Abbreviation prompt_of := (prompt_of json_loads).
#[local] Abbreviation main := (main json_loads A assistant consumer_stop producer_stop).

(** X13: fields of an envelope other than [type] and [content] play no
    part in its classification. *)
Theorem X13_other_fields_ignored
    (d : gmap string pyvalue) (key : string) (v : pyvalue) :
  key <> "type" ->
  key <> "content" ->
  user_content (VDict (<[key := v]> d)) = user_content (VDict d)
  /\ user_content (VDict (delete key d)) = user_content (VDict d).
Proof.
  intros Ht Hc.
  rewrite !(user_content_dict json_loads).
  unfold has_tag, dict_get, dict_contains, dict_getitem.
  rewrite !lookup_insert_ne, !lookup_delete_ne by congruence.
  split; reflexivity.
Qed.

(** X14: the classifier raises in two ways only: [AttributeError], on
    text that decodes to something other than a mapping; or what the
    decoder raised on the text, when that is no [JSONDecodeError].  On a
    value that is not text it never raises. *)
Theorem X14_classifier_errors (value : pyvalue) (e : exn) :
  user_content value = Raise e ->
  exists s, value = VStr s
    /\ ((e = AttributeError /\ exists v, json_loads s = Ok v /\ is_dict v = false)
        \/ (json_loads s = Raise e /\ is_JSONDecodeError e = false)).
Proof.
  destruct value as [| | | |s| |d]; try discriminate.
  - intros H. exists s. split; [reflexivity|].
    unfold Agent.user_content in H.
    destruct (json_loads s) as [data_obj|e0] eqn:Hs.
    + left. destruct data_obj as [| | | | | |d];
        try (injection H as <-; split; [reflexivity|]; eexists; split; reflexivity).
      exfalso. simpl in H.
      unfold dict_contains, dict_getitem in H.
      destruct (d !! "content") as [c|].
      * destruct (_ && _); discriminate.
      * rewrite bool_decide_eq_false_2 in H by (intros [? ?]; discriminate).
        rewrite andb_false_r in H. discriminate.
    + right. destruct (is_JSONDecodeError e0) eqn:He; [discriminate|].
      injection H as <-. split; [reflexivity|exact He].
  - rewrite (user_content_dict json_loads). unfold dict_contains, dict_getitem.
    destruct (d !! "content") as [c|].
    + destruct (_ && _); discriminate.
    + rewrite bool_decide_eq_false_2 by (intros [? ?]; discriminate).
      rewrite andb_false_r. discriminate.
Qed.

(** X15: the loop over a stream cut in two is the loop over the first
    part, to its end, followed by the loop over the second from the state
    the first left; an exception that ends the first part ends the whole. *)
Theorem X15_loop_composes (pre post : list pyvalue) (ending : consumer_end) (a : A) :
  async_for (pre ++ post) ending a =
  match async_for pre Exhausted a with
  | (a1, t1, Ok _) =>
      let '(a2, t2, r) := async_for post ending a1 in (a2, t1 ++ t2, r)
  | (a1, t1, Raise e) => (a1, t1, Raise e)
  end.
Proof.
  revert a. induction pre as [|value pre IH]; intros a.
  - simpl. destruct (async_for post ending a) as [[a2 t2] r]. reflexivity.
  - rewrite <- app_comm_cons, !(async_for_cons json_loads A assistant).
    destruct (iteration value a) as [[a1 t1] [[]|e]]; [|reflexivity].
    rewrite IH.
    destruct (async_for pre Exhausted a1) as [[a2 t2] [[]|e]]; [|reflexivity].
    destruct (async_for post ending a2) as [[a3 t3] r].
    rewrite app_assoc. reflexivity.
Qed.

(** X16: an exception that is no [Exception] (an interrupt, a
    cancellation), raised while a message is processed, ends the loop at
    that message: no error record is written, no later message is fetched,
    and the exception leaves the loop. *)
Theorem X16_base_exception_ends_loop
    (pre post : list pyvalue) (value : pyvalue) (ending : consumer_end)
    (a a1 a2 : A) (t1 t2 : list event) (e : exn) :
  async_for pre Exhausted a = (a1, t1, Ok tt) ->
  process value a1 = (a2, t2, Raise e) ->
  is_Exception e = false ->
  async_for (pre ++ value :: post) ending a = (a2, t1 ++ Fetch value :: t2, Raise e).
Proof.
  intros Hpre Hvalue He.
  rewrite (async_for_app json_loads A assistant), Hpre,
    (async_for_cons json_loads A assistant),
    (iteration_unfold json_loads A assistant), Hvalue, He.
  reflexivity.
Qed.

Lemma prompt_of_truthy (value p : pyvalue) : prompt_of value = Some p -> truthy p = true.
Proof.
  unfold Agent.prompt_of.
  destruct (truthy value); [|discriminate].
  destruct (user_content value) as [content|]; [|discriminate].
  destruct (truthy content) eqn:Hc; [|discriminate].
  intros [= <-]. exact Hc.
Qed.

Lemma async_for_calls_truthy (deliveries : list pyvalue) (ending : consumer_end) (a : A) :
  Forall (fun p => truthy p = true) (called (snd (fst (async_for deliveries ending a)))).
Proof.
  revert a. induction deliveries as [|value rest IH]; intros a.
  - simpl. destruct ending; constructor.
  - rewrite (async_for_cons json_loads A assistant).
    pose proof (iteration_trace json_loads A assistant value a) as (_ & Hc & _).
    cbv zeta in Hc.
    assert (Hturn : Forall (fun p => truthy p = true)
                      (called (snd (fst (iteration value a))))).
    { rewrite Hc. destruct (prompt_of value) as [p|] eqn:Hp; [|constructor].
      constructor; [|constructor]. exact (prompt_of_truthy _ _ Hp). }
    destruct (iteration value a) as [[a1 t1] [[]|e]]; simpl in Hturn.
    + specialize (IH a1).
      destruct (async_for rest ending a1) as [[a2 t2] r]. simpl in IH. simpl.
      change (called (Fetch value :: t1 ++ t2)) with (called (t1 ++ t2)).
      rewrite called_app. apply Forall_app. split; assumption.
    + simpl. exact Hturn.
Qed.

(** X17: whatever is delivered and however the run ends, the agent is
    only ever called with a truthy prompt: never with an empty text,
    [None], zero or an empty container. *)
Theorem X17_prompts_truthy (deliveries : list pyvalue) (ending : consumer_end) (a : A) :
  Forall (fun p => truthy p = true) (called (snd (fst (main deliveries ending a)))).
Proof.
  rewrite (main_unfold json_loads A assistant consumer_stop producer_stop).
  pose proof (async_for_calls_truthy deliveries ending a) as Hloop.
  destruct (async_for deliveries ending a) as [[a1 t1] r1]. simpl in Hloop.
  assert (Hcalled : forall t2 t3, called t2 = [] -> called t3 = [] ->
            called (banner ++ t1 ++ t2 ++ t3) = called t1).
  { intros t2 t3 H2 H3. rewrite !called_app, H2, H3, app_nil_r. reflexivity. }
  destruct r1 as [[]|e];
    [|destruct (is_KeyboardInterrupt e); [|destruct (is_Exception e)]];
    (destruct consumer_stop as [[]|ec]; [destruct producer_stop as [[]|ep]|]);
    cbn [fst snd]; rewrite Hcalled by reflexivity; exact Hloop.
Qed.

(** X18: how [main] ends.  A failure of [consumer.stop()] leaves [main],
    else one of [producer.stop()], whatever happened before; when both
    return, [main] returns normally after a normal end of the loop, after
    an interrupt and after any error of the consumer, and only another
    exception that is no [Exception] leaves it. *)
Theorem X18_main_outcome (deliveries : list pyvalue) (ending : consumer_end) (a : A) :
  snd (main deliveries ending a) =
  match consumer_stop, producer_stop with
  | Raise e, _ => Raise e
  | Ok _, Raise e => Raise e
  | Ok _, Ok _ =>
      match snd (async_for deliveries ending a) with
      | Ok _ => Ok tt
      | Raise e => if is_KeyboardInterrupt e || is_Exception e then Ok tt else Raise e
      end
  end.
Proof.
  rewrite (main_unfold json_loads A assistant consumer_stop producer_stop).
  destruct (async_for deliveries ending a) as [[a1 t1] [[]|e]]; cbn [fst snd];
    [|destruct (is_KeyboardInterrupt e); [|destruct (is_Exception e)]];
    (destruct consumer_stop as [[]|ec]; [destruct producer_stop as [[]|ep]|]);
    reflexivity.
Qed.

(** X19: where the decoder and the agent raise nothing but errors, the
    stream is exhausted and both connections stop, every delivered
    message is fetched, in order, and [main] returns normally. *)
Theorem X19_main_fetches_all (deliveries : list pyvalue) (a : A) :
  (forall s e, json_loads s = Raise e -> is_Exception e = true) ->
  (forall p a0 e, snd (assistant p a0) = Raise e -> is_Exception e = true) ->
  consumer_stop = Ok tt ->
  producer_stop = Ok tt ->
  fetched (snd (fst (main deliveries Exhausted a))) = deliveries
  /\ snd (main deliveries Exhausted a) = Ok tt.
Proof.
  intros Hjson Hagent Hc Hp.
  rewrite (main_unfold json_loads A assistant consumer_stop producer_stop).
  destruct (async_for_fetches_all json_loads A assistant deliveries a Hjson Hagent)
    as (a1 & t & -> & Hf).
  rewrite Hc, Hp. cbn [fst snd].
  split; [|reflexivity].
  rewrite !fetched_app, Hf. simpl. apply app_nil_r.
Qed.

Lemma main_stops_consumer (deliveries : list pyvalue) (ending : consumer_end) (a : A) :
  (1 <= count is_stop_consumer (snd (fst (main deliveries ending a))))%nat.
Proof.
  rewrite (main_unfold json_loads A assistant consumer_stop producer_stop).
  destruct (async_for deliveries ending a) as [[a1 t1] r1].
  destruct (match r1 with Ok x => _ | Raise e => _ end) as [t2 r2].
  destruct consumer_stop as [[]|ec]; [destruct producer_stop as [[]|ep]|];
    cbn [fst snd]; rewrite !count_app; simpl; lia.
Qed.

End MoreFacts.

Section StartupFacts.
Import Startup.

Context (json_loads : string -> result pyvalue).
Context (A : Type) (assistant : pyvalue -> A -> A * result pyvalue).
Context (consumer_stop producer_stop : result unit).
Context (OP_NO_SSLv2 OP_NO_SSLv3 default_options : Z) (floor : Ssl.TLSVersion).
Context (consumer_start producer_start run_enter : result unit).
Context (run_exit : result unit -> result unit).

#[local] Abbreviation main_whole :=
  (main_whole json_loads A assistant consumer_stop producer_stop
     OP_NO_SSLv2 OP_NO_SSLv3 default_options floor
     consumer_start producer_start run_enter run_exit).

Lemma scount_app (p : sevent -> bool) (t1 t2 : list sevent) :
  scount p (t1 ++ t2) = (scount p t1 + scount p t2)%nat.
Proof.
  induction t1 as [|ev t1 IH]; simpl; [reflexivity|]. rewrite IH. lia.
Qed.

Lemma scount_stop_map (t : list event) :
  scount is_stop (map Ev t)
  = (count is_stop_consumer t + count is_stop_producer t)%nat.
Proof.
  induction t as [|ev t IH]; [reflexivity|].
  simpl. rewrite IH. destruct ev; simpl; lia.
Qed.

(** X20: [main] stops a connection only once it has started both and
    entered [fast.run()].  When a start or the entry fails, [main] ends
    with that exception without a call of [stop]: a consumer that was
    started stays connected. *)
Theorem X20_stop_only_after_startup
    (deliveries : list pyvalue) (ending : consumer_end) (a : A) :
  let t := snd (fst (main_whole deliveries ending a)) in
  match consumer_start, producer_start, run_enter with
  | Ok _, Ok _, Ok _ => (1 <= scount is_stop t)%nat
  | Raise e, _, _ | Ok _, Raise e, _ | Ok _, Ok _, Raise e =>
      scount is_stop t = O /\ snd (main_whole deliveries ending a) = Raise e
  end.
Proof.
  cbv zeta. unfold Startup.main_whole, create_consumer, create_producer.
  cbn [Ssl.create_ssl_context Ssl.set_verify_mode Ssl.set_check_hostname
       Ssl.check_hostname Ssl.set_options Ssl.SSLContext_PROTOCOL_TLS_CLIENT
       mbind result_bind mret result_ret Ssl.load_default_certs].
  destruct consumer_start as [[]|e1]; [|split; reflexivity].
  destruct producer_start as [[]|e2]; [|split; reflexivity].
  destruct run_enter as [[]|e3]; [|split; reflexivity].
  pose proof (main_stops_consumer json_loads A assistant consumer_stop producer_stop
                deliveries ending a) as Hone.
  destruct (main json_loads A assistant consumer_stop producer_stop deliveries ending a)
    as [[a1 t] r].
  cbn [fst snd] in Hone |- *. rewrite !scount_app, scount_stop_map.
  simpl. lia.
Qed.

End StartupFacts.

(* ===================================================================== *)
(** ** The added facts on samples *)
(* ===================================================================== *)

Lemma X4_witness :
  ["anthropic"; "api_key"] <> []
  /\ Config.lookup_path ["anthropic"; "api_key"] (VDict ConfigSample.secrets_doc)
     = Some (VStr "secret")
  /\ is_dict (VStr "secret") = false
  /\ Config.lookup_path ["anthropic"; "api_key"]
       (VDict (Config.deep_merge ConfigSample.config_doc ConfigSample.secrets_doc))
     = Some (VStr "secret").
Proof.
  assert (H1 : ["anthropic"; "api_key"] <> ([] : list string)) by discriminate.
  assert (H2 : Config.lookup_path ["anthropic"; "api_key"] (VDict ConfigSample.secrets_doc)
               = Some (VStr "secret")) by (vm_compute; reflexivity).
  split; [exact H1|]. split; [exact H2|]. split; [reflexivity|].
  exact (X4_deep_merge_update_wins _ ConfigSample.config_doc _ _ H1 H2 eq_refl).
Defined.

Lemma X5_witness :
  Config.lookup_path ["anthropic"; "base_url"] (VDict ConfigSample.config_doc)
    = Some (VStr "https://example")
  /\ Config.lookup_path ["anthropic"; "base_url"] (VDict ConfigSample.secrets_doc) = None
  /\ Config.lookup_path ["anthropic"; "base_url"]
       (VDict (Config.deep_merge ConfigSample.config_doc ConfigSample.secrets_doc))
     = Some (VStr "https://example").
Proof.
  assert (H1 : Config.lookup_path ["anthropic"; "base_url"] (VDict ConfigSample.config_doc)
               = Some (VStr "https://example")) by (vm_compute; reflexivity).
  assert (H2 : Config.lookup_path ["anthropic"; "base_url"] (VDict ConfigSample.secrets_doc)
               = None) by (vm_compute; reflexivity).
  assert (H3 : forall above w, above `prefix_of` ["anthropic"; "base_url"] ->
            Config.lookup_path above (VDict ConfigSample.secrets_doc) = Some w ->
            is_dict w = true).
  { intros above w [rest Hrest] Hw.
    destruct above as [|x [|y [|z above]]]; simpl in Hrest.
    - injection Hw as <-. reflexivity.
    - injection Hrest as <- _. vm_compute in Hw. injection Hw as <-. reflexivity.
    - injection Hrest as <- <- _. vm_compute in Hw. discriminate.
    - discriminate. }
  split; [exact H1|]. split; [exact H2|].
  exact (X5_deep_merge_base_kept _ _ _ _ H1 H2 H3).
Defined.

Lemma X8_witness :
  Config.get_settings ConfigSample.cwd ConfigSample.exists_ ConfigSample.safe_load
      _ ConfigSample.Settings None None None
    = (Some (Config.deep_merge ConfigSample.config_doc ConfigSample.secrets_doc),
       [Config.Opened ConfigSample.config_file; Config.Opened ConfigSample.secrets_file],
       Ok (Config.deep_merge ConfigSample.config_doc ConfigSample.secrets_doc))
  /\ Config.get_settings ConfigSample.cwd ConfigSample.exists_ ConfigSample.safe_load
      _ ConfigSample.Settings None None
      (Some (Config.deep_merge ConfigSample.config_doc ConfigSample.secrets_doc))
    = (Some (Config.deep_merge ConfigSample.config_doc ConfigSample.secrets_doc), [],
       Ok (Config.deep_merge ConfigSample.config_doc ConfigSample.secrets_doc)).
Proof.
  assert (H : Config.get_settings ConfigSample.cwd ConfigSample.exists_
                ConfigSample.safe_load _ ConfigSample.Settings None None None
              = (Some (Config.deep_merge ConfigSample.config_doc ConfigSample.secrets_doc),
                 [Config.Opened ConfigSample.config_file;
                  Config.Opened ConfigSample.secrets_file],
                 Ok (Config.deep_merge ConfigSample.config_doc ConfigSample.secrets_doc)))
    by (vm_compute; reflexivity).
  split; [exact H|].
  exact (proj2 (X8_get_settings_cached _ _ _ _ _ _ _ _ _ _ H)).
Defined.



Lemma X13_witness :
  "id" <> "type" /\ "id" <> "content"
  /\ user_content Json.loads (VDict (<["id" := VInt 7]> Sample.hi_dict))
     = user_content Json.loads (VDict Sample.hi_dict)
  /\ user_content Json.loads (VDict (delete "id" Sample.hi_dict))
     = user_content Json.loads (VDict Sample.hi_dict).
Proof.
  assert (H1 : "id" <> "type") by discriminate.
  assert (H2 : "id" <> "content") by discriminate.
  split; [exact H1|]. split; [exact H2|].
  exact (X13_other_fields_ignored Json.loads Sample.hi_dict "id" (VInt 7) H1 H2).
Defined.

Lemma X14_witness :
  user_content Json.loads (VStr "42") = Raise AttributeError
  /\ exists s, VStr "42" = VStr s
       /\ ((AttributeError = AttributeError
            /\ exists v, Json.loads s = Ok v /\ is_dict v = false)
           \/ (Json.loads s = Raise AttributeError
               /\ is_JSONDecodeError AttributeError = false)).
Proof.
  assert (H : user_content Json.loads (VStr "42") = Raise AttributeError)
    by (vm_compute; reflexivity).
  split; [exact H|].
  exact (X14_classifier_errors Json.loads (VStr "42") AttributeError H).
Defined.

Lemma X16_witness :
  async_for Json.loads _ Sample2.interruptible [VStr "a"] Exhausted []
    = ([VStr "a"], Fetch (VStr "a") :: Sample.answered "a", Ok tt)
  /\ process Json.loads _ Sample2.interruptible (VStr "stop") [VStr "a"]
    = ([VStr "a"; VStr "stop"], Sample.failed "stop" KeyboardInterrupt,
       Raise KeyboardInterrupt)
  /\ is_Exception KeyboardInterrupt = false
  /\ async_for Json.loads _ Sample2.interruptible
       ([VStr "a"] ++ VStr "stop" :: [VStr "b"]) Exhausted []
    = ([VStr "a"; VStr "stop"],
       (Fetch (VStr "a") :: Sample.answered "a")
         ++ Fetch (VStr "stop") :: Sample.failed "stop" KeyboardInterrupt,
       Raise KeyboardInterrupt).
Proof.
  assert (H1 : async_for Json.loads _ Sample2.interruptible [VStr "a"] Exhausted []
               = ([VStr "a"], Fetch (VStr "a") :: Sample.answered "a", Ok tt))
    by (vm_compute; reflexivity).
  assert (H2 : process Json.loads _ Sample2.interruptible (VStr "stop") [VStr "a"]
               = ([VStr "a"; VStr "stop"], Sample.failed "stop" KeyboardInterrupt,
                  Raise KeyboardInterrupt))
    by (vm_compute; reflexivity).
  split; [exact H1|]. split; [exact H2|]. split; [reflexivity|].
  exact (X16_base_exception_ends_loop Json.loads _ Sample2.interruptible
           [VStr "a"] [VStr "b"] (VStr "stop") Exhausted
           [] _ _ _ _ _ H1 H2 eq_refl).
Defined.

Lemma loads_raises_errors (s : string) (e : exn) :
  Json.loads s = Raise e -> is_Exception e = true.
Proof.
  unfold Json.loads.
  destruct (Json.scan_once _ _) as [v rest| |].
  - destruct (Json.skip_ws rest); [discriminate|]. intros [= <-]. reflexivity.
  - intros [= <-]. reflexivity.
  - intros [= <-]. reflexivity.
Qed.

Lemma sample_assistant_raises_errors (p : pyvalue) (seen : list pyvalue) (e : exn) :
  snd (Sample.assistant p seen) = Raise e -> is_Exception e = true.
Proof.
  unfold Sample.assistant. simpl.
  destruct (eq_str p "boom"); [|discriminate]. intros [= <-]. reflexivity.
Qed.

Lemma X19_witness :
  fetched (snd (fst (main Json.loads _ Sample.assistant (Ok tt) (Ok tt)
                       [VStr "a"; VStr "boom"; VStr "42"] Exhausted [])))
    = [VStr "a"; VStr "boom"; VStr "42"]
  /\ snd (main Json.loads _ Sample.assistant (Ok tt) (Ok tt)
            [VStr "a"; VStr "boom"; VStr "42"] Exhausted []) = Ok tt.
Proof.
  exact (X19_main_fetches_all Json.loads _ Sample.assistant (Ok tt) (Ok tt)
           [VStr "a"; VStr "boom"; VStr "42"] []
           loads_raises_errors sample_assistant_raises_errors eq_refl eq_refl).
Defined.
